(** * The NBA position-classification grader ([src/grader.py])

    A shallow embedding of [grade] and of the parts of the Python, numpy
    and pandas run time it relies on, followed by the properties of the
    grading contract.

    - Python [float]s are IEEE-754 binary64 values.  They are modelled
      bit-exactly with the executable specification [SpecFloat] of the
      standard library ([prec = 53], [emax = 1024], round to nearest
      even), so that every score below is the very double the
      interpreter computes.
    - Python [int]s are unbounded and modelled by [Z].
    - Exceptions are modelled by an error monad; [try ... except
      Exception] turns a raised exception into a result.
    - The two files the grader reads are modelled by a file system that
      maps a path to the outcome of parsing it: an error, or a table
      whose values are text, integers, floats (NaN for a missing value)
      or booleans, as [pd.read_csv] types them.  The [print] calls of
      the source write to standard output only and are not modelled. *)

From Stdlib Require Import ZArith List String Ascii Bool Lia SpecFloat DecimalString.
Import ListNotations.
Open Scope Z_scope.

(* ================================================================== *)
(** * Python run time                                                  *)
(* ================================================================== *)

Module Py.

(** ** Floating point: binary64 *)

Definition prec : Z := 53.
Definition emax : Z := 1024.

Definition float : Type := spec_float.

Definition fadd : float -> float -> float := SFadd prec emax.
Definition fsub : float -> float -> float := SFsub prec emax.
Definition fmul : float -> float -> float := SFmul prec emax.
Definition fdiv : float -> float -> float := SFdiv prec emax.

(** [x < y], [x <= y], [x == y] and [x >= y] on floats. *)
Definition flt : float -> float -> bool := SFltb.
Definition fle : float -> float -> bool := SFleb.
Definition feq : float -> float -> bool := SFeqb.
Definition fge (x y : float) : bool := SFleb y x.

(** The double nearest to an integer (what numpy's cast of an [int64]
    to [float64] and Python's [float(n)] compute). *)
Definition float_of_Z (z : Z) : float := binary_normalize prec emax z 0 false.

(** The double denoted by the decimal literal [n/d]: the correctly
    rounded quotient of two exactly representable integers. *)
Definition literal (n d : Z) : float := fdiv (float_of_Z n) (float_of_Z d).

Definition f0_0 : float := Eval vm_compute in float_of_Z 0.
Definition f1_0 : float := Eval vm_compute in float_of_Z 1.
Definition f0_2 : float := Eval vm_compute in literal 2 10.
Definition f0_3 : float := Eval vm_compute in literal 3 10.
Definition f0_5 : float := Eval vm_compute in literal 5 10.
Definition f0_8 : float := Eval vm_compute in literal 8 10.
Definition f0_95 : float := Eval vm_compute in literal 95 100.

(** Python's [max(a, b)]: the first argument unless the second is
    strictly greater. *)
Definition fmax (a b : float) : float := if flt a b then b else a.

(** ** Exceptions and the error monad *)

Inductive Exn : Type :=
| FileNotFoundError (path : string)
| ParserError (msg : string)      (* whatever [pd.read_csv] raises on the content *)
| KeyError (key : string)
| OverflowError (msg : string)
| ValueError (msg : string).

Inductive Result (A : Type) : Type :=
| Ok (a : A)
| Raise (e : Exn).
Arguments Ok {A} a.
Arguments Raise {A} e.

Definition bind {A B : Type} (m : Result A) (k : A -> Result B) : Result B :=
  match m with
  | Ok a => k a
  | Raise e => Raise e
  end.

(** [int * float] first converts the integer; an integer beyond the
    range of doubles raises. *)
Definition float_of_int (z : Z) : Result float :=
  match float_of_Z z with
  | S754_infinity _ => Raise (OverflowError "int too large to convert to float")
  | x => Ok x
  end.

(** [int(x)]: truncation towards zero. *)
Definition int_of_float (x : float) : Result Z :=
  match x with
  | S754_zero _ => Ok 0
  | S754_finite s m e =>
      let magnitude :=
        match e with
        | Z0 => Zpos m
        | Zpos _ => Zpos m * 2 ^ e
        | Zneg p => Zpos m / 2 ^ Zpos p
        end in
      Ok (if s then - magnitude else magnitude)
  | S754_infinity _ => Raise (OverflowError "cannot convert float infinity to integer")
  | S754_nan => Raise (ValueError "cannot convert float NaN to integer")
  end.

(** ** Strings *)

(** A string is a sequence of characters with code points below 256:
    ASCII and the Latin-1 letters and signs.  Text with other
    characters is outside the model. *)

(** [str.lower()]: the capitals A-Z and the Latin-1 capitals U+00C0 to
    U+00DE (U+00D7 is the multiplication sign, no letter) go to their
    small letters, 32 code points further. *)
Definition lower_char (c : ascii) : ascii :=
  let n := nat_of_ascii c in
  if (Nat.leb 65 n && Nat.leb n 90)%bool then ascii_of_nat (n + 32)
  else if (Nat.leb 192 n && Nat.leb n 222 && negb (Nat.eqb n 215))%bool
       then ascii_of_nat (n + 32)
  else c.

Fixpoint lower (s : string) : string :=
  match s with
  | EmptyString => EmptyString
  | String c s' => String (lower_char c) (lower s')
  end.

(** [sub in s]. *)
Fixpoint contains (sub s : string) : bool :=
  match s with
  | EmptyString => String.prefix sub EmptyString
  | String _ s' => (String.prefix sub s || contains sub s')%bool
  end.

(** An f-string is the concatenation of its pieces. *)
Definition fstring (pieces : list string) : string :=
  String.concat EmptyString pieces.

(** [sep.join(parts)]. *)
Definition join (sep : string) (parts : list string) : string :=
  String.concat sep parts.

(** [str(n)] for an integer. *)
Definition str_of_int (z : Z) : string := NilZero.string_of_int (Z.to_int z).

(** [repr(s)]: the quote is ['] unless the string holds a ['] and no
    double quote; the quote and the backslash are escaped; tab, line
    feed and carriage return have their letters; the other characters
    that are not printable (the control characters below U+0020 and
    from U+007F to U+009F, the no-break space U+00A0 and the soft
    hyphen U+00AD) are written in hexadecimal. *)
Definition dquote : ascii := ascii_of_nat 34.
Definition squote : ascii := ascii_of_nat 39.
Definition backslash : ascii := ascii_of_nat 92.

Fixpoint has_char (c : ascii) (s : string) : bool :=
  match s with
  | EmptyString => false
  | String c' s' => (Ascii.eqb c c' || has_char c s')%bool
  end.

Definition hex_digit (n : nat) : ascii :=
  if Nat.ltb n 10 then ascii_of_nat (48 + n) else ascii_of_nat (87 + n).

Definition repr_char (quote c : ascii) : string :=
  let n := nat_of_ascii c in
  if (Ascii.eqb c quote || Ascii.eqb c backslash)%bool then String backslash (String c EmptyString)
  else if Nat.eqb n 9 then String backslash "t"
  else if Nat.eqb n 10 then String backslash "n"
  else if Nat.eqb n 13 then String backslash "r"
  else if (Nat.ltb n 32 || (Nat.leb 127 n && Nat.leb n 160) || Nat.eqb n 173)%bool then
    String backslash (String "x" (String (hex_digit (Nat.div n 16))
                                    (String (hex_digit (Nat.modulo n 16)) EmptyString)))
  else String c EmptyString.

Fixpoint repr_chars (quote : ascii) (s : string) : string :=
  match s with
  | EmptyString => EmptyString
  | String c s' => String.append (repr_char quote c) (repr_chars quote s')
  end.

Definition repr_str (s : string) : string :=
  let quote := if (has_char squote s && negb (has_char dquote s))%bool then dquote else squote in
  String quote (String.append (repr_chars quote s) (String quote EmptyString)).

(** [repr] of a list of strings, as an f-string prints it. *)
Definition repr_list (l : list string) : string :=
  fstring ["["%string; join ", " (map repr_str l); "]"%string].

(** [f"{x:.3f}"]: the exact value of the double, rounded half to even
    at the third decimal. *)
Definition round_half_even (num den : Z) : Z :=
  let q := num / den in
  let r := num mod den in
  if 2 * r <? den then q
  else if den <? 2 * r then q + 1
  else if Z.even q then q else q + 1.

Definition pad3 (n : Z) : string :=
  let s := str_of_int n in
  if n <? 10 then fstring ["00"%string; s]
  else if n <? 100 then fstring ["0"%string; s]
  else s.

Definition format_3f (x : float) : string :=
  match x with
  | S754_nan => "nan"
  | S754_infinity s => if s then "-inf" else "inf"
  | S754_zero s => if s then "-0.000" else "0.000"
  | S754_finite s m e =>
      let thousandths :=
        match e with
        | Zneg p => round_half_even (Zpos m * 1000) (2 ^ Zpos p)
        | _ => Zpos m * 2 ^ e * 1000
        end in
      fstring [(if s then "-" else EmptyString)%string;
               str_of_int (thousandths / 1000); "."%string;
               pad3 (thousandths mod 1000)]
  end.

(** [str(e)] for the exceptions above. *)
Definition str_of_exn (e : Exn) : string :=
  match e with
  | FileNotFoundError path =>
      fstring ["[Errno 2] No such file or directory: "%string; repr_str path]
  | ParserError msg => msg
  | KeyError key => repr_str key
  | OverflowError msg => msg
  | ValueError msg => msg
  end.

(** ** Dictionaries (insertion ordered) *)

Definition dict (A : Type) : Type := list (string * A).

Fixpoint dict_get {A : Type} (k : string) (d : dict A) : option A :=
  match d with
  | [] => None
  | (k', v) :: d' => if String.eqb k k' then Some v else dict_get k d'
  end.

(** [d[k] = v]: replaces in place, or appends a new key. *)
Fixpoint dict_set {A : Type} (k : string) (v : A) (d : dict A) : dict A :=
  match d with
  | [] => [(k, v)]
  | (k', v') :: d' =>
      if String.eqb k k' then (k, v) :: d' else (k', v') :: dict_set k v d'
  end.

Definition keys {A : Type} (d : dict A) : list string := map fst d.
Definition values {A : Type} (d : dict A) : list A := map snd d.

(** Values stored under [Dict[str, Any]]. *)
Inductive Any : Type :=
| AStr (s : string)
| AInt (z : Z)
| AFloat (x : float)
| AList (l : list string).

End Py.

Export Py.

Declare Scope py_scope.
Notation "x <- m ;; k" := (bind m (fun x => k))
  (at level 61, m at next level, right associativity) : py_scope.
Open Scope py_scope.

(* ================================================================== *)
(** * pandas and numpy                                                 *)
(* ================================================================== *)

Module Pandas.

(** A value of a table.  [read_csv] gives every column one type: text
    (an object column), [int64], [float64] or [bool].  A missing value,
    that is an empty cell or a marker such as NA, is read as the float
    NaN, in a text column too. *)
Inductive cell : Type :=
| Str (s : string)
| Int (z : Z)
| Flt (x : float)
| Bool (b : bool).


(** [pd.isna(c)]. *)
Definition isna (c : cell) : bool :=
  match c with
  | Flt S754_nan => true
  | _ => false
  end.

(** The double that numpy compares a number as, once an array of
    integers or booleans meets an array of floats. *)
Definition as_float (c : cell) : option float :=
  match c with
  | Str _ => None
  | Int z => Some (float_of_Z z)
  | Flt x => Some x
  | Bool b => Some (if b then f1_0 else f0_0)
  end.

(** [a == b] on two array elements (numpy's [equal]): text equals the
    same text and no number; numbers are compared by value, so that 2
    equals 2.0 and True equals 1; NaN equals nothing, itself
    included. *)
Definition equal (a b : cell) : bool :=
  match a, b with
  | Str s, Str t => String.eqb s t
  | Int x, Int y => Z.eqb x y
  | Bool x, Bool y => Bool.eqb x y
  | Int x, Bool y => Z.eqb x (Z.b2z y)
  | Bool x, Int y => Z.eqb (Z.b2z x) y
  | _, _ =>
      match as_float a, as_float b with
      | Some x, Some y => feq x y
      | _, _ => false
      end
  end.

(** The integer a double is, when it is one. *)
Definition exact_int (x : float) : option Z :=
  match x with
  | S754_zero _ => Some 0
  | S754_finite s m e =>
      match e with
      | Zneg p =>
          if Zpos m mod 2 ^ Zpos p =? 0
          then Some (if s then - (Zpos m / 2 ^ Zpos p) else Zpos m / 2 ^ Zpos p)
          else None
      | _ => Some (if s then - (Zpos m * 2 ^ e) else Zpos m * 2 ^ e)
      end
  | _ => None
  end.

(** What [drop_duplicates] compares: the key of a value in pandas' hash
    tables.  Two values are duplicates when their keys are the same:
    text by its characters, numbers by value (1, 1.0 and True are one
    key, as are 0.0 and -0.0), and NaN is a duplicate of NaN. *)
Definition key (c : cell) : cell :=
  match c with
  | Flt x =>
      match exact_int x with
      | Some z => Int z
      | None => Flt x
      end
  | Bool b => Int (Z.b2z b)
  | _ => c
  end.

(** Two values with the same representation (the test behind
    [same_key], applied to keys). *)
Definition float_same (x y : float) : bool :=
  match x, y with
  | S754_zero s, S754_zero s' => Bool.eqb s s'
  | S754_infinity s, S754_infinity s' => Bool.eqb s s'
  | S754_nan, S754_nan => true
  | S754_finite s m e, S754_finite s' m' e' =>
      (Bool.eqb s s' && Pos.eqb m m' && Z.eqb e e')%bool
  | _, _ => false
  end.

Definition cell_same (a b : cell) : bool :=
  match a, b with
  | Str s, Str t => String.eqb s t
  | Int x, Int y => Z.eqb x y
  | Flt x, Flt y => float_same x y
  | Bool x, Bool y => Bool.eqb x y
  | _, _ => false
  end.

Definition same_key (a b : cell) : bool := cell_same (key a) (key b).

(** A data frame: the row labels and the columns, in order.  Every
    column of a frame built by [read_csv] has one value per row. *)
Record DataFrame : Type := {
  index : list Z;
  data : list (string * list cell)
}.

Definition columns (df : DataFrame) : list string := map fst (data df).
Definition len (df : DataFrame) : Z := Z.of_nat (List.length (index df)).

(** What a path holds: content that [pd.read_csv] rejects (with the
    message of the exception), or a table of [nrows] data rows under a
    header row. *)
Inductive File : Type :=
| Unparsable (msg : string)
| Table (nrows : nat) (cols : list (string * list cell)).

Definition FileSystem : Type := string -> option File.

(** [os.path.exists(path)]. *)
Definition path_exists (fs : FileSystem) (path : string) : bool :=
  match fs path with
  | Some _ => true
  | None => false
  end.

(** The default row labels [0, 1, ..., n-1]. *)
Definition RangeIndex (n : nat) : list Z := map Z.of_nat (seq 0 n).

(** [pd.read_csv(path)]. *)
Definition read_csv (fs : FileSystem) (path : string) : Result DataFrame :=
  match fs path with
  | None => Raise (FileNotFoundError path)
  | Some (Unparsable msg) => Raise (ParserError msg)
  | Some (Table nrows cols) => Ok {| index := RangeIndex nrows; data := cols |}
  end.

(** [df[col].values]. *)
Fixpoint lookup_column (col : string) (cols : list (string * list cell))
  : Result (list cell) :=
  match cols with
  | [] => Raise (KeyError col)
  | (c, v) :: cols' => if String.eqb col c then Ok v else lookup_column col cols'
  end.

Definition getitem (df : DataFrame) (col : string) : Result (list cell) :=
  lookup_column col (data df).

(** [df.iloc[start:]]: positional slice; the rows keep their labels.
    A negative [start] counts from the end. *)
Definition slice_start (start : Z) (n : nat) : nat :=
  if start <? 0 then Z.to_nat (Z.of_nat n + start) else Z.to_nat start.

Definition iloc_from (start : Z) (df : DataFrame) : DataFrame :=
  let k := slice_start start (List.length (index df)) in
  {| index := skipn k (index df);
     data := map (fun cv => (fst cv, skipn k (snd cv))) (data df) |}.

(** Position of the first label that is not below [lo].  On an
    increasing index this is where a label slice [lo:] starts, whether
    or not [lo] itself is a label. *)
Fixpoint searchsorted_left (labels : list Z) (lo : Z) : nat :=
  match labels with
  | [] => O
  | i :: labels' => if i <? lo then S (searchsorted_left labels' lo) else O
  end.

(** [df.loc[lo:, col].values]: label slice of one column. *)
Definition loc_from (lo : Z) (col : string) (df : DataFrame) : Result (list cell) :=
  v <- getitem df col ;;
  Ok (skipn (searchsorted_left (index df) lo) v).

(** [np.array_equal(a, b)]: the same shape, and [a == b] everywhere. *)
Definition array_equal (a b : list cell) : bool :=
  (Nat.eqb (List.length a) (List.length b)
   && forallb (fun xy => equal (fst xy) (snd xy)) (combine a b))%bool.

(** [np.sum(a == b)] for two arrays of one length. *)
Definition count_equal (a b : list cell) : Z :=
  Z.of_nat (List.length (filter (fun xy => equal (fst xy) (snd xy)) (combine a b))).

End Pandas.

Export Pandas.

(* ================================================================== *)
(** * The grader                                                       *)
(* ================================================================== *)

Record GradingResult : Type := {
  score : float;
  subscores : dict float;
  weights : dict float;
  feedback : option string;
  details : option (dict Any)
}.

Definition predictions_path : string := "sol.csv".
Definition nba_path : string := "nba_player_stats.csv".

(** Lines 46-54: the loop over the header names. *)
Definition find_columns_step (acc : option string * option string) (col : string)
  : option string * option string :=
  let col_lower := lower col in
  if contains "actual" col_lower then (Some col, snd acc)
  else if contains "predicted" col_lower then (fst acc, Some col)
  else acc.

Definition find_columns (cols : list string) : option string * option string :=
  fold_left find_columns_step cols (None, None).

(** Line 68: [int(0.2 * total_rows)]. *)
Definition expected_test_size (total_rows : Z) : Result Z :=
  x <- float_of_int total_rows ;;
  int_of_float (fmul f0_2 x).

(** Lines 71-72. *)
Definition size_tolerance : Z := 2.

Definition size_score (actual_test_size expected_test_size : Z) : float :=
  if Z.abs (actual_test_size - expected_test_size) <=? size_tolerance
  then f1_0 else f0_5.

(** Line 79: [int(0.8 * total_rows)]. *)
Definition test_start_idx (total_rows : Z) : Result Z :=
  x <- float_of_int total_rows ;;
  int_of_float (fmul f0_8 x).

(** Lines 81-82: [nba_data.iloc[test_start_idx:].copy()] and then
    [.loc[1:, 'Pos'].values]. *)
Definition expected_actuals (start : Z) (nba_data : DataFrame) : Result (list cell) :=
  let expected_test_data := iloc_from start nba_data in
  loc_from 1 "Pos" expected_test_data.

(** Lines 89-92. *)
Definition actual_match_score (actual_values expected : list cell) : float :=
  if Nat.eqb (List.length actual_values) (List.length expected)
  then (if array_equal actual_values expected then f1_0 else f0_0)
  else f0_0.

(** Lines 100-102: the guard, and the accuracy when it holds. *)
Definition accuracy_defined (actual_values predicted_values : list cell) : bool :=
  (Nat.eqb (List.length actual_values) (List.length predicted_values)
   && (0 <? Z.of_nat (List.length actual_values)))%bool.

Definition accuracy (actual_values predicted_values : list cell) : float :=
  let correct_predictions := count_equal actual_values predicted_values in
  fdiv (float_of_Z correct_predictions) (float_of_Z (Z.of_nat (List.length actual_values))).

(** Lines 120-124. *)
Definition grade_weights : dict float :=
  [("test_size_correct"%string, f0_2);
   ("correct_test_split"%string, f0_3);
   ("classification_accuracy"%string, f0_5)].

(** [d[key]] read access. *)
Definition dict_item {A : Type} (d : dict A) (key : string) : Result A :=
  match dict_get key d with
  | Some v => Ok v
  | None => Raise (KeyError key)
  end.

(** Line 127: [sum(subscores[key] * weights[key] for key in weights.keys())],
    accumulated from the integer [0], left to right.  (Interpreters that
    sum floats with a compensation term return the same double on these
    three terms: the first two are added with a single rounding, and the
    third is a numpy scalar or the exact zero.) *)
Fixpoint weighted_sum_from (acc : float) (subs ws : dict float) (ks : list string)
  : Result float :=
  match ks with
  | [] => Ok acc
  | key :: ks' =>
      s <- dict_item subs key ;;
      w <- dict_item ws key ;;
      weighted_sum_from (fadd acc (fmul s w)) subs ws ks'
  end.

Definition weighted_sum (subs ws : dict float) : Result float :=
  weighted_sum_from f0_0 subs ws (keys ws).

(** Lines 130-131: the bonus. *)
Definition all_components_perfect (subs : dict float) : bool :=
  forallb (fun s => fge s f0_95) (values subs).

Definition apply_bonus (subs : dict float) (final_score accuracy_score : float) : float :=
  if all_components_perfect subs then fmax final_score accuracy_score else final_score.

(** The notes appended to [feedback_parts] (lines 76, 97, 112-113, 117). *)
Definition size_feedback (actual_test_size expected_size : Z) : string :=
  fstring ["Test set size: "%string; str_of_int actual_test_size;
           ", expected: ~"%string; str_of_int expected_size].

Definition split_feedback : string :=
  "The 'actual' values don't match the expected test set (last 20% of rows)".

Definition accuracy_feedback (acc classification_error : float) : list string :=
  [fstring ["Classification accuracy: "%string; format_3f acc];
   fstring ["Classification error: "%string; format_3f classification_error]].

Definition no_accuracy_feedback : string :=
  "Could not calculate accuracy due to mismatched array lengths".

Definition success_feedback : string := "Task completed successfully!".

(** Lines 41-142: the body of the [try]. *)
Definition grade_try (fs : FileSystem) : Result GradingResult :=
  let subscores0 : dict float := [] in
  let details0 : dict Any := [] in
  let feedback_parts0 : list string := [] in
  predictions_df <- read_csv fs predictions_path ;;
  match find_columns (columns predictions_df) with
  | (Some actual_col, Some predicted_col) =>
      nba_data <- read_csv fs nba_path ;;
      let total_rows := len nba_data in
      expected_size <- expected_test_size total_rows ;;
      let actual_test_size := len predictions_df in
      let size_sc := size_score actual_test_size expected_size in
      let subscores1 := dict_set "test_size_correct" size_sc subscores0 in
      let feedback_parts1 :=
        if flt size_sc f1_0
        then feedback_parts0 ++ [size_feedback actual_test_size expected_size]
        else feedback_parts0 in
      start <- test_start_idx total_rows ;;
      expected <- expected_actuals start nba_data ;;
      actual_values <- getitem predictions_df actual_col ;;
      predicted_values <- getitem predictions_df predicted_col ;;
      let match_sc := actual_match_score actual_values expected in
      let subscores2 := dict_set "correct_test_split" match_sc subscores1 in
      let feedback_parts2 :=
        if feq match_sc f0_0
        then feedback_parts1 ++ [split_feedback]
        else feedback_parts1 in
      let '(accuracy_score, subscores3, details1, feedback_parts3) :=
        if accuracy_defined actual_values predicted_values then
          let correct_predictions := count_equal actual_values predicted_values in
          let acc := accuracy actual_values predicted_values in
          let classification_error := fsub f1_0 acc in
          (acc,
           dict_set "classification_accuracy" acc subscores2,
           dict_set "total_predictions" (AInt (Z.of_nat (List.length actual_values)))
             (dict_set "correct_predictions" (AInt correct_predictions)
                (dict_set "classification_error" (AFloat classification_error)
                   (dict_set "accuracy" (AFloat acc) details0))),
           feedback_parts2 ++ accuracy_feedback acc classification_error)
        else
          (f0_0,
           dict_set "classification_accuracy" f0_0 subscores2,
           details0,
           feedback_parts2 ++ [no_accuracy_feedback]) in
      let ws := grade_weights in
      final_score <- weighted_sum subscores3 ws ;;
      let final_score' := apply_bonus subscores3 final_score accuracy_score in
      let details2 := dict_set "test_set_size" (AInt actual_test_size) details1 in
      let details3 := dict_set "expected_test_size" (AInt expected_size) details2 in
      Ok {| score := final_score';
            subscores := subscores3;
            weights := ws;
            feedback := Some (match feedback_parts3 with
                              | [] => success_feedback
                              | _ => join " | " feedback_parts3
                              end);
            details := Some details3 |}
  | _ =>
      Ok {| score := f0_0;
            subscores := [];
            weights := [];
            feedback :=
              Some (fstring
                ["sol.csv must contain columns with 'actual' and 'predicted' in their names. Found columns: "%string;
                 repr_list (columns predictions_df)]);
            details := Some [("error"%string, AStr "missing_required_columns");
                             ("columns"%string, AList (columns predictions_df))] |}
  end.

(** Lines 17-149. *)
Definition grade (fs : FileSystem) (transcript : string) : GradingResult :=
  if negb (path_exists fs predictions_path) then
    {| score := f0_0;
       subscores := [];
       weights := [];
       feedback := Some "sol.csv file not found. Please save your predictions to sol.csv"%string;
       details := Some [("error"%string, AStr "missing_predictions_file")] |}
  else
    match grade_try fs with
    | Ok result => result
    | Raise e =>
        {| score := f0_0;
           subscores := [];
           weights := [];
           feedback := Some (fstring ["Error processing predictions: "%string; str_of_exn e]);
           details := Some [("error"%string, AStr "processing_error");
                            ("exception"%string, AStr (str_of_exn e))] |}
    end.

(** What the claim of an off-by-one describes: the labels from the
    boundary on, without the first of them.  (Stated from the
    specification, for comparison with [expected_actuals].) *)
Definition spec_ExpectedHeldOut (boundary : Z) (pos : list cell) : list cell :=
  tl (skipn (Z.to_nat boundary) pos).

(** The values a run has when it gets as far as computing scores. *)
Record Scoring : Type := {
  predictions_df : DataFrame;
  actual_col : string;
  predicted_col : string;
  nba_data : DataFrame;
  expected_size : Z;
  start_idx : Z;
  expected_labels : list cell;
  actual_values : list cell;
  predicted_values : list cell
}.

Definition reaches_scoring (fs : FileSystem) (s : Scoring) : Prop :=
  read_csv fs predictions_path = Ok (predictions_df s) /\
  find_columns (columns (predictions_df s)) = (Some (actual_col s), Some (predicted_col s)) /\
  read_csv fs nba_path = Ok (nba_data s) /\
  expected_test_size (len (nba_data s)) = Ok (expected_size s) /\
  test_start_idx (len (nba_data s)) = Ok (start_idx s) /\
  expected_actuals (start_idx s) (nba_data s) = Ok (expected_labels s) /\
  getitem (predictions_df s) (actual_col s) = Ok (actual_values s) /\
  getitem (predictions_df s) (predicted_col s) = Ok (predicted_values s).

(** The header tests of the column loop. *)
Definition is_actual (col : string) : bool := contains "actual" (lower col).
Definition is_predicted (col : string) : bool := contains "predicted" (lower col).

(** A named sub-score of a result. *)
Definition subscore (name : string) (r : GradingResult) : option float :=
  dict_get name (subscores r).

(** The [error] tag of a result's details. *)
Definition error_tag (r : GradingResult) : option Any :=
  match details r with
  | Some d => dict_get "error" d
  | None => None
  end.

(** The weighted combination as the specification writes it:
    [0.2*test_size_correct + 0.3*correct_test_split + 0.5*classification_accuracy]. *)
Definition weighted (ts cs ca : float) : float :=
  fadd (fadd (fmul f0_2 ts) (fmul f0_3 cs)) (fmul f0_5 ca).

(** The three sub-scores of a run that reaches scoring. *)
Definition ts_of (s : Scoring) : float :=
  size_score (len (predictions_df s)) (expected_size s).

Definition cs_of (s : Scoring) : float :=
  actual_match_score (actual_values s) (expected_labels s).

Definition ca_of (s : Scoring) : float :=
  if accuracy_defined (actual_values s) (predicted_values s)
  then accuracy (actual_values s) (predicted_values s)
  else f0_0.

(** Two sequences that agree element for element: the same length and,
    at every position, values that compare equal.  (Stated from the
    specification, for comparison with [array_equal].) *)
Definition spec_elementwise_equal (actual expected : list cell) : Prop :=
  List.length actual = List.length expected /\
  forall i x y,
    nth_error actual i = Some x -> nth_error expected i = Some y ->
    equal x y = true.


(* ================================================================== *)
(** * Sample inputs                                                    *)
(* ================================================================== *)

Module Sample.

(** A file system holding the two files. *)
Definition two_files (sol nba : File) : FileSystem :=
  fun path =>
    if String.eqb path "sol.csv" then Some sol
    else if String.eqb path "nba_player_stats.csv" then Some nba
    else None.

(** Ten players; the last two rows are the held-out ones. *)
Definition nba10_cols : list (string * list cell) :=
  [("Player"%string,
    [Str "p0"; Str "p1"; Str "p2"; Str "p3"; Str "p4";
     Str "p5"; Str "p6"; Str "p7"; Str "p8"; Str "p9"]);
   ("Pos"%string,
    [Str "PG"; Str "SG"; Str "SF"; Str "PF"; Str "C";
     Str "PG"; Str "SG"; Str "SF"; Str "PF"; Str "C"])].

Definition nba10 : File := Table 10 nba10_cols.

(** A submission with the right rows and every prediction right. *)
Definition sol_perfect_cols : list (string * list cell) :=
  [("Player name"%string, [Str "p8"; Str "p9"]);
   ("player's actual position"%string, [Str "PF"; Str "C"]);
   ("predicted position"%string, [Str "PF"; Str "C"])].

Definition fs_perfect : FileSystem := two_files (Table 2 sol_perfect_cols) nba10.

Definition s_perfect : Scoring :=
  {| predictions_df := {| index := RangeIndex 2; data := sol_perfect_cols |};
     actual_col := "player's actual position";
     predicted_col := "predicted position";
     nba_data := {| index := RangeIndex 10; data := nba10_cols |};
     expected_size := 2;
     start_idx := 8;
     expected_labels := [Str "PF"; Str "C"];
     actual_values := [Str "PF"; Str "C"];
     predicted_values := [Str "PF"; Str "C"] |}.

(** A submission with the right rows and one of two predictions wrong. *)
Definition sol_half_cols : list (string * list cell) :=
  [("Player name"%string, [Str "p8"; Str "p9"]);
   ("player's actual position"%string, [Str "PF"; Str "C"]);
   ("predicted position"%string, [Str "PF"; Str "PG"])].

Definition fs_half : FileSystem := two_files (Table 2 sol_half_cols) nba10.

Definition s_half : Scoring :=
  {| predictions_df := {| index := RangeIndex 2; data := sol_half_cols |};
     actual_col := "player's actual position";
     predicted_col := "predicted position";
     nba_data := {| index := RangeIndex 10; data := nba10_cols |};
     expected_size := 2;
     start_idx := 8;
     expected_labels := [Str "PF"; Str "C"];
     actual_values := [Str "PF"; Str "C"];
     predicted_values := [Str "PF"; Str "PG"] |}.





(** A submission whose file cannot be parsed. *)
Definition fs_garbled : FileSystem :=
  two_files (Unparsable "No columns to parse from file") nba10.

(** Five players: the boundary is 4 and the held-out slice is one row. *)
Definition pos5 : list cell := [Str "PG"; Str "SG"; Str "SF"; Str "PF"; Str "C"].

Definition nba5_df : DataFrame :=
  {| index := RangeIndex 5;
     data := [("Player"%string, [Str "p0"; Str "p1"; Str "p2"; Str "p3"; Str "p4"]);
              ("Pos"%string, pos5)] |}.

(** Headers with two columns named after [actual]. *)
Definition headers_two_actual : list string :=
  ["actual_position"; "actual_position_raw"; "predicted_position"]%string.

(** Headers without the required names. *)
Definition sol_no_roles : File :=
  Table 0 [("name"%string, []); ("guess"%string, []); ("truth"%string, [])].

Definition fs_no_roles : FileSystem := two_files sol_no_roles nba10.

(** The same two files, next to an unrelated third one. *)
Definition fs_perfect_more : FileSystem :=
  fun path =>
    if String.eqb path "notes.txt" then Some (Unparsable "not a table")
    else fs_perfect path.

End Sample.

(* ================================================================== *)
(** * The producer ([src/master_agent/tools.py], [create_classifier])  *)
(* ================================================================== *)

(** Every column of the frame has one value per row, as in any frame
    that pandas builds. *)
Definition well_formed (df : DataFrame) : Prop :=
  Forall (fun cv => List.length (snd cv) = List.length (index df)) (data df).

Module Tools.

(** [l[mask]]: the entries at the positions where the mask is true. *)
Fixpoint select {A : Type} (mask : list bool) (l : list A) : list A :=
  match mask, l with
  | b :: mask', x :: l' => if b then x :: select mask' l' else select mask' l'
  | _, _ => []
  end.

(** [df[mask]]: boolean row selection; the rows keep their labels. *)
Definition filter_rows (mask : list bool) (df : DataFrame) : DataFrame :=
  {| index := select mask (index df);
     data := map (fun cv => (fst cv, select mask (snd cv))) (data df) |}.

(** [df.drop(columns=names, errors='ignore')]. *)
Definition drop_columns (names : list string) (df : DataFrame) : DataFrame :=
  {| index := index df;
     data := filter (fun cv => negb (existsb (String.eqb (fst cv)) names)) (data df) |}.

(** The mask of [drop_duplicates(keep='last')] on one column: a row
    stays when no row further down has the same key. *)
Fixpoint keep_last (l : list cell) : list bool :=
  match l with
  | [] => []
  | x :: l' => negb (existsb (same_key x) l') :: keep_last l'
  end.

(** [name in df.columns]. *)
Definition has_column (name : string) (df : DataFrame) : bool :=
  existsb (String.eqb name) (columns df).

(** [X.select_dtypes(include=[...])], given which columns [read_csv]
    typed as [int64], [float64], [int32] or [float32]. *)
Definition select_dtypes (numeric : string -> bool) (df : DataFrame) : DataFrame :=
  {| index := index df;
     data := filter (fun cv => numeric (fst cv)) (data df) |}.

(** [X.empty]: no column or no row. *)
Definition empty (df : DataFrame) : bool :=
  (match data df with [] => true | _ => false end || (len df =? 0))%bool.

(** What the function takes from the libraries it does not define:
    the type [read_csv] gave each column, whether imputing and scaling
    the features raises, and the labels the fitted classifier predicts
    for the rows after the split (from the features, the split index
    and the training labels). *)
Record Learner : Type := {
  numeric : string -> bool;
  scaling_error : DataFrame -> option Exn;
  fit_predict : DataFrame -> Z -> list cell -> Result (list cell)
}.

(** How a call ends: an early [return] of a message, the [except]
    branch, or the predictions written to [sol.csv] (the summary text
    returned after that is not modelled). *)
Inductive Outcome : Type :=
| Returned (message : string)
| Failed (e : Exn)
| Wrote (results : DataFrame).

(** Lines 62-64: the cleaning of the table. *)
Definition clean (df : DataFrame) : Result DataFrame :=
  player <- getitem df "Player" ;;
  let df1 :=
    filter_rows (map (fun v => negb (equal v (Str "League Average"))) player) df in
  let df2 := drop_columns ["Rk"; "Team"; "Awards"]%string df1 in
  player2 <- getitem df2 "Player" ;;
  Ok (filter_rows (keep_last player2) df2).

(** Lines 113-117: [pd.DataFrame({...})] from three arrays. *)
Definition make_results (player_test y_test y_pred : list cell) : Result DataFrame :=
  if (Nat.eqb (List.length player_test) (List.length y_test)
      && Nat.eqb (List.length y_test) (List.length y_pred))%bool
  then Ok {| index := RangeIndex (List.length y_test);
             data := [("Player name"%string, player_test);
                      ("player's actual position"%string, y_test);
                      ("predicted position"%string, y_pred)] |}
  else Raise (ValueError "All arrays must be of the same length").

(** Lines 59-121: the body of the [try] after the existence test. *)
Definition create_classifier_try (L : Learner) (fs : FileSystem) (filepath : string)
  : Result Outcome :=
  df0 <- read_csv fs filepath ;;
  df <- clean df0 ;;
  if (negb (has_column "Player" df) || negb (has_column "Pos" df))%bool then
    Ok (Returned (fstring
          ["Error: CSV must contain 'Player' and 'Pos' columns. Found columns: "%string;
           repr_list (columns df)]))
  else
    player_names <- getitem df "Player" ;;
    y <- getitem df "Pos" ;;
    let X := select_dtypes (numeric L) (drop_columns ["Player"; "Pos"]%string df) in
    if empty X then
      Ok (Returned (fstring
            ["Error: No numeric columns found for training. Available columns: "%string;
             repr_list (columns df)]))
    else if len X <? 10 then
      Ok (Returned (fstring
            ["Error: Not enough data for training. Only "%string;
             str_of_int (len X); " samples found."%string]))
    else
      match scaling_error L X with
      | Some e => Raise e
      | None =>
          (* line 97: [max(1, int(0.8 * len(X_scaled)))], the product and
             truncation of line 79 of the grader *)
          split0 <- test_start_idx (len X) ;;
          let split_index := Z.max 1 split0 in
          let k := Z.to_nat split_index in
          let y_train := firstn k y in
          let y_test := skipn k y in
          let player_test := skipn k player_names in
          if Nat.eqb (List.length (skipn k (index X))) 0 then
            Ok (Returned "Error: No test data available after split. Dataset too small.")
          else
            y_pred <- fit_predict L X split_index y_train ;;
            results <- make_results player_test y_test y_pred ;;
            Ok (Wrote results)
      end.

(** Lines 41-160. *)
Definition create_classifier (L : Learner) (fs : FileSystem) (filepath : string)
  : Outcome :=
  if negb (path_exists fs filepath) then
    Returned (fstring ["Error: File "%string; filepath; " not found."%string])
  else
    match create_classifier_try L fs filepath with
    | Ok outcome => outcome
    | Raise e => Failed e
    end.

End Tools.

(** A season table with a numeric column, already clean, and a learner
    that always predicts PG. *)
Module ToolsSample.

Definition season_cols : list (string * list cell) :=
  [("Rk"%string, [Int 1; Int 2; Int 3; Int 4; Int 5; Int 6; Int 7; Int 8; Int 9; Int 10]);
   ("Player"%string,
    [Str "p0"; Str "p1"; Str "p2"; Str "p3"; Str "p4";
     Str "p5"; Str "p6"; Str "p7"; Str "p8"; Str "p9"]);
   ("Pos"%string,
    [Str "PG"; Str "SG"; Str "SF"; Str "PF"; Str "C";
     Str "PG"; Str "SG"; Str "SF"; Str "PF"; Str "C"]);
   ("PTS"%string,
    [Int 11; Int 12; Int 13; Int 14; Int 15; Int 16; Int 17; Int 18; Int 19; Int 20])].

Definition season : File := Table 10 season_cols.

Definition always_pg : Tools.Learner :=
  {| Tools.numeric := fun c => (String.eqb c "Rk" || String.eqb c "PTS")%bool;
     Tools.scaling_error := fun _ => None;
     Tools.fit_predict := fun X split_index _ =>
       Ok (repeat (Str "PG") (List.length (index X) - Z.to_nat split_index)) |}.

Definition season_results : DataFrame :=
  {| index := RangeIndex 2;
     data := [("Player name"%string, [Str "p8"; Str "p9"]);
              ("player's actual position"%string, [Str "PF"; Str "C"]);
              ("predicted position"%string, [Str "PG"; Str "PG"])] |}.

Definition fs_season : FileSystem :=
  fun path => if String.eqb path "nba_player_stats.csv" then Some season else None.

Definition fs_graded : FileSystem :=
  Sample.two_files (Table 2 (data season_results)) season.

(** A table with a repeated player and a league-average row. *)
Definition raw_df : DataFrame :=
  {| index := RangeIndex 4;
     data := [("Player"%string, [Str "p0"; Str "p1"; Str "p0"; Str "League Average"]);
              ("Pos"%string, [Str "PG"; Str "SG"; Str "SF"; Str "C"])] |}.

(** A table without a player column, and one without positions. *)
Definition fs_no_player : FileSystem :=
  fun path =>
    if String.eqb path "nba_player_stats.csv"
    then Some (Table 1 [("Pos"%string, [Str "PG"])]) else None.

Definition fs_no_pos : FileSystem :=
  fun path =>
    if String.eqb path "nba_player_stats.csv"
    then Some (Table 1 [("Player"%string, [Str "p0"])]) else None.

End ToolsSample.

(* ================================================================== *)
(** * Facts about binary64 arithmetic                                  *)
(* ================================================================== *)

Lemma digits2_pos_size p : digits2_pos p = Pos.size p.
Proof. induction p; simpl; congruence. Qed.

Lemma digits2_bounds p :
  2 ^ (Zpos (digits2_pos p) - 1) <= Zpos p < 2 ^ Zpos (digits2_pos p).
Proof.
  rewrite digits2_pos_size. split.
  - pose proof (Pos.size_le p) as H.
    assert (Zpos (2 ^ Pos.size p) <= Zpos p~0) by exact H.
    rewrite Pos2Z.inj_pow in H0.
    replace (Zpos (Pos.size p)) with (Z.succ (Zpos (Pos.size p) - 1)) in H0 by lia.
    rewrite Z.pow_succ_r in H0 by lia. lia.
  - pose proof (Pos.size_gt p) as H.
    assert (Zpos p < Zpos (2 ^ Pos.size p)) by exact H.
    now rewrite Pos2Z.inj_pow in H0.
Qed.

Lemma digits2_unique p d :
  2 ^ (d - 1) <= Zpos p < 2 ^ d -> Zpos (digits2_pos p) = d.
Proof.
  intros [Hl Hu]. pose proof (digits2_bounds p) as [Hl' Hu'].
  assert (0 < d).
  { destruct (Z.ltb_spec 0 d) as [|Hd]; auto.
    destruct (Z.eq_dec d 0) as [->|]; [simpl in Hu; lia|].
    rewrite Z.pow_neg_r in Hu; lia. }
  set (D := Zpos (digits2_pos p)) in *.
  destruct (Z.lt_trichotomy D d) as [Hlt | [Heq | Hgt]]; auto.
  - assert (2 ^ D <= 2 ^ (d - 1)) by (apply Z.pow_le_mono_r; lia). lia.
  - assert (2 ^ d <= 2 ^ (D - 1)) by (apply Z.pow_le_mono_r; lia). lia.
Qed.

Lemma pow2_pos n : 0 <= n -> 0 < 2 ^ n.
Proof. intros. apply Z.pow_pos_nonneg; lia. Qed.

(** ** Right shifts with round and sticky bits *)
Lemma iter_pos_nat {A} (f : A -> A) p x :
  iter_pos f p x = Nat.iter (Pos.to_nat p) f x.
Proof.
  revert x. induction p as [p IH|p IH|]; intros x; cbn [iter_pos].
  - rewrite !IH, Pos2Nat.inj_xI.
    rewrite <- Nat.iter_succ_r, <- Nat.iter_add. f_equal. lia.
  - rewrite !IH, Pos2Nat.inj_xO, <- Nat.iter_add. f_equal. lia.
  - reflexivity.
Qed.

Lemma shr_1_m mrs : 0 <= shr_m mrs -> shr_m (shr_1 mrs) = shr_m mrs / 2.
Proof.
  destruct mrs as [m r s]; cbn [shr_m]. intros Hm.
  destruct m as [|[p|p|]|p]; cbn [shr_1 shr_m]; try lia; try reflexivity.
  - apply Z.div_unique with 1; lia.
  - apply Z.div_unique with 0; lia.
Qed.

Lemma shr_iter_m n mrs :
  0 <= shr_m mrs ->
  shr_m (Nat.iter n shr_1 mrs) = shr_m mrs / 2 ^ Z.of_nat n.
Proof.
  intros Hm. induction n as [|n IH].
  - simpl. now rewrite Z.div_1_r.
  - pose proof (pow2_pos (Z.of_nat n) ltac:(lia)) as Hp.
    rewrite Nat2Z.inj_succ, Z.pow_succ_r by lia. rewrite Nat.iter_succ.
    rewrite shr_1_m.
    + rewrite IH, Z.div_div by lia. f_equal. lia.
    + rewrite IH. apply Z.div_pos; lia.
Qed.

Lemma shr_1_exact m :
  0 <= m -> Z.even m = true ->
  shr_1 (Build_shr_record m false false) = Build_shr_record (m / 2) false false.
Proof.
  intros Hm He. destruct m as [|[p|p|]|p]; try discriminate; try lia; auto.
  cbn [shr_1 orb]. f_equal. apply Z.div_unique with 0; lia.
Qed.

Lemma shr_iter_exact n m :
  0 <= m ->
  Nat.iter n shr_1 (Build_shr_record (m * 2 ^ Z.of_nat n) false false)
  = Build_shr_record m false false.
Proof.
  intros Hm. induction n as [|n IH].
  - simpl. f_equal. lia.
  - pose proof (pow2_pos (Z.of_nat n) ltac:(lia)) as Hp.
    rewrite Nat.iter_succ_r, Nat2Z.inj_succ, Z.pow_succ_r by lia.
    rewrite shr_1_exact.
    + replace (m * (2 * 2 ^ Z.of_nat n) / 2) with (m * 2 ^ Z.of_nat n); auto.
      apply Z.div_unique with 0; lia.
    + nia.
    + replace (m * (2 * 2 ^ Z.of_nat n)) with (2 * (m * 2 ^ Z.of_nat n)) by lia.
      rewrite Z.even_mul. reflexivity.
Qed.

Lemma fexp_eq e : -1021 <= e -> fexp prec emax e = e - 53.
Proof. intros. unfold fexp, emin, prec, emax. lia. Qed.

Lemma shr_m_of_loc m l : shr_m (shr_record_of_loc m l) = m.
Proof. destruct l as [|[]]; reflexivity. Qed.

Lemma shr_fexp_spec q e l d :
  Zpos (digits2_pos q) = d -> 53 <= d -> -1074 <= e + d - 53 ->
  exists mrs, shr_fexp prec emax (Zpos q) e l = (mrs, e + (d - 53)) /\
              shr_m mrs = Zpos q / 2 ^ (d - 53).
Proof.
  intros Hd Hd53 He. unfold shr_fexp. cbn [Zdigits2]. rewrite Hd, fexp_eq by lia.
  replace (d + e - 53 - e) with (d - 53) by lia.
  destruct (d - 53) as [|p|p] eqn:Hsh; try lia.
  - rewrite Z.add_0_r. eexists; split; [reflexivity|].
    rewrite shr_m_of_loc. simpl. now rewrite Z.div_1_r.
  - cbn [shr]. eexists; split; [reflexivity|].
    rewrite iter_pos_nat, shr_iter_m by (rewrite shr_m_of_loc; lia).
    now rewrite shr_m_of_loc, positive_nat_Z.
Qed.

Lemma round_nearest_even_bounds t l :
  t <= round_nearest_even t l <= t + 1.
Proof. destruct l as [|[]]; simpl; try lia. destruct (Z.even t); lia. Qed.

Lemma binary_round_aux_spec s q e l d :
  Zpos (digits2_pos q) = d -> 53 <= d -> -1074 <= e + d - 53 -> e + d - 53 < 971 ->
  let t := Zpos q / 2 ^ (d - 53) in
  exists m' e',
    binary_round_aux prec emax s (Zpos q) e l = S754_finite s m' e' /\
    ((e' = e + (d - 53) /\ t <= Zpos m' <= t + 1 /\ Zpos m' < 2 ^ 53) \/
     (e' = e + (d - 53) + 1 /\ Zpos m' = 2 ^ 52 /\ t = 2 ^ 53 - 1)).
Proof.
  intros Hd Hd53 He He' t.
  destruct (shr_fexp_spec q e l d Hd Hd53 He) as (mrs & Hshr & Hm).
  fold t in Hm.
  assert (Ht : 2 ^ 52 <= t < 2 ^ 53).
  { pose proof (digits2_bounds q) as [Hl Hu]. rewrite Hd in Hl, Hu.
    pose proof (pow2_pos (d - 53) ltac:(lia)) as Hp.
    assert (E1 : 2 ^ (d - 1) = 2 ^ 52 * 2 ^ (d - 53))
      by (rewrite <- Z.pow_add_r by lia; f_equal; lia).
    assert (E2 : 2 ^ d = 2 ^ 53 * 2 ^ (d - 53))
      by (rewrite <- Z.pow_add_r by lia; f_equal; lia).
    rewrite E1 in Hl. rewrite E2 in Hu.
    unfold t. split.
    - apply Z.div_le_lower_bound; lia.
    - apply Z.div_lt_upper_bound; lia. }
  unfold binary_round_aux. rewrite Hshr, Hm.
  pose proof (round_nearest_even_bounds t (loc_of_shr_record mrs)) as Hr.
  destruct (round_nearest_even t (loc_of_shr_record mrs)) as [|r|r]; try lia.
  destruct (Z.ltb_spec (Zpos r) (2 ^ 53)) as [Hlt|Hge].
  - assert (Hdr : Zpos (digits2_pos r) = 53) by (apply digits2_unique; lia).
    destruct (shr_fexp_spec r (e + (d - 53)) loc_Exact 53 Hdr ltac:(lia) ltac:(lia))
      as (mrs2 & Hshr2 & Hm2).
    rewrite Hshr2. change (2 ^ (53 - 53)) with 1 in Hm2. rewrite Z.div_1_r in Hm2.
    rewrite Hm2.
    replace (e + (d - 53) + (53 - 53)) with (e + (d - 53)) by lia.
    destruct (Z.leb_spec (e + (d - 53)) (emax - prec)) as [_|Hbad];
      [|unfold emax, prec in Hbad; lia].
    exists r, (e + (d - 53)). split; [reflexivity|]. left. lia.
  - assert (Hr53 : Zpos r = 2 ^ 53) by lia.
    assert (Hdr : Zpos (digits2_pos r) = 54) by (apply digits2_unique; lia).
    destruct (shr_fexp_spec r (e + (d - 53)) loc_Exact 54 Hdr ltac:(lia) ltac:(lia))
      as (mrs2 & Hshr2 & Hm2).
    rewrite Hshr2, Hm2, Hr53. change (2 ^ 53 / 2 ^ (54 - 53)) with (Zpos (2 ^ 52)).
    cbv iota beta.
    destruct (Z.leb_spec (e + (d - 53) + (54 - 53)) (emax - prec)) as [_|Hbad];
      [|unfold emax, prec in Hbad; lia].
    exists (2 ^ 52)%positive, (e + (d - 53) + 1). split; [f_equal; lia|]. right. lia.
Qed.

Lemma binary_round_aux_exact s m k e :
  2 ^ 52 <= Zpos m < 2 ^ 53 -> 0 <= k -> -1074 <= e + k <= 971 ->
  forall q, Zpos q = Zpos m * 2 ^ k ->
  binary_round_aux prec emax s (Zpos q) e loc_Exact = S754_finite s m (e + k).
Proof.
  intros Hm Hk He q Hq.
  pose proof (pow2_pos k Hk) as Hp.
  assert (Hdm : Zpos (digits2_pos m) = 53) by (apply digits2_unique; lia).
  assert (Hdq : Zpos (digits2_pos q) = 53 + k).
  { apply digits2_unique. rewrite Hq.
    replace (53 + k - 1) with (52 + k) by lia. rewrite !Z.pow_add_r by lia. nia. }
  unfold binary_round_aux, shr_fexp. cbn [Zdigits2 shr_record_of_loc].
  rewrite Hdq, fexp_eq by lia.
  replace (53 + k + e - 53 - e) with k by lia.
  assert (Hfirst : shr (Build_shr_record (Zpos q) false false) e k
                   = (Build_shr_record (Zpos m) false false, e + k)).
  { destruct k as [|p|p]; try lia.
    - cbn [shr]. rewrite Z.add_0_r. do 2 f_equal. rewrite Hq. simpl. lia.
    - cbn [shr]. f_equal. rewrite iter_pos_nat, Hq.
      rewrite <- (positive_nat_Z p) at 1. apply shr_iter_exact. lia. }
  rewrite Hfirst. cbn [shr_m loc_of_shr_record round_nearest_even Zdigits2 shr_record_of_loc].
  rewrite Hdm, fexp_eq by lia.
  replace (53 + (e + k) - 53 - (e + k)) with 0 by lia. cbn [shr shr_m].
  destruct (Z.leb_spec (e + k) (emax - prec)) as [_|Hbad];
    [reflexivity|unfold emax, prec in Hbad; lia].
Qed.

Lemma float_of_Z_spec n :
  0 < n < 2 ^ 53 ->
  exists m e, float_of_Z n = S754_finite false m e /\
              2 ^ 52 <= Zpos m < 2 ^ 53 /\ -52 <= e <= 0 /\
              Zpos m = n * 2 ^ (- e).
Proof.
  intros [Hn0 Hn]. destruct n as [|p|p]; try lia.
  pose proof (digits2_bounds p) as [Hl Hu].
  set (d := Zpos (digits2_pos p)) in *.
  assert (Hd : 1 <= d <= 53).
  { split; [unfold d; lia|].
    destruct (Z.leb_spec d 53); auto.
    assert (2 ^ 53 <= 2 ^ (d - 1)) by (apply Z.pow_le_mono_r; lia). lia. }
  pose proof (pow2_pos (53 - d) ltac:(lia)) as Hp.
  assert (Hm : 2 ^ 52 <= Zpos p * 2 ^ (53 - d) < 2 ^ 53).
  { assert (E1 : 2 ^ 52 = 2 ^ (d - 1) * 2 ^ (53 - d))
      by (rewrite <- Z.pow_add_r by lia; f_equal; lia).
    assert (E2 : 2 ^ 53 = 2 ^ d * 2 ^ (53 - d))
      by (rewrite <- Z.pow_add_r by lia; f_equal; lia).
    rewrite E1, E2. nia. }
  unfold float_of_Z, binary_normalize, binary_round. fold d.
  rewrite Z.add_0_r, fexp_eq by lia. unfold shl_align.
  replace (d - 53 - 0) with (d - 53) by lia.
  destruct (d - 53) as [|k|k] eqn:Hk; try lia.
  - exists p, 0. replace (53 - d) with 0 in Hm by lia.
    rewrite Z.mul_1_r in Hm. split; [|simpl; lia].
    rewrite (binary_round_aux_exact false p 0 0); auto; lia.
  - assert (Hq : Zpos (Pos.iter xO p k) = Zpos p * 2 ^ (53 - d)).
    { rewrite (Pos.iter_swap_gen _ _ Zpos xO (Z.mul 2)) by reflexivity.
      change (Pos.iter (Z.mul 2) (Zpos p) k) with (Z.shiftl (Zpos p) (Zpos k)).
      rewrite Z.shiftl_mul_pow2 by lia. f_equal. f_equal. lia. }
    exists (Pos.iter xO p k), (Zneg k).
    rewrite (binary_round_aux_exact false (Pos.iter xO p k) 0 (Zneg k)) by lia.
    rewrite Z.add_0_r. split; [reflexivity|].
    rewrite Hq. repeat split; try lia.
    f_equal. f_equal. lia.
Qed.


Lemma fdiv_self s m e :
  fdiv (S754_finite s m e) (S754_finite s m e) = f1_0.
Proof.
  unfold fdiv, SFdiv, SFdiv_core_binary. cbn [Zdigits2].
  replace (Zpos (digits2_pos m) + e - (Zpos (digits2_pos m) + e)) with 0 by lia.
  rewrite Z.sub_diag. change (Z.min (fexp prec emax 0) 0) with (-53).
  change (0 - -53) with 53. cbv iota.
  rewrite Z.shiftl_mul_pow2 by lia.
  assert (Hdiv : Z.div_eucl (Zpos m * 2 ^ 53) (Zpos m) = (2 ^ 53, 0)).
  { pose proof (Z.div_eucl_eq (Zpos m * 2 ^ 53) (Zpos m) ltac:(lia)) as Heq.
    pose proof (Z.mod_pos_bound (Zpos m * 2 ^ 53) (Zpos m) ltac:(lia)) as Hb.
    unfold Z.modulo in Hb.
    destruct (Z.div_eucl (Zpos m * 2 ^ 53) (Zpos m)) as [q r].
    assert (q = 2 ^ 53) by nia. subst q. f_equal. lia. }
  rewrite Hdiv.
  assert (Hloc : new_location (Zpos m) 0 = loc_Exact).
  { unfold new_location, new_location_even, new_location_odd.
    destruct (Z.even (Zpos m)); reflexivity. }
  rewrite Hloc. destruct s; reflexivity.
Qed.

Lemma div_eucl_spec a b : 0 < b -> Z.div_eucl a b = (a / b, a mod b).
Proof. intros. unfold Z.div, Z.modulo. now destruct (Z.div_eucl a b). Qed.

Lemma fdiv_spec m1 e1 m2 e2 :
  2 ^ 52 <= Zpos m1 < 2 ^ 53 -> 2 ^ 52 <= Zpos m2 < 2 ^ 53 ->
  -60 <= e1 <= 0 -> -60 <= e2 <= 0 ->
  let t := Zpos m1 * 2 ^ 53 / Zpos m2 in
  let d := if Zpos m1 <? Zpos m2 then 53 else 54 in
  exists m e,
    fdiv (S754_finite false m1 e1) (S754_finite false m2 e2) = S754_finite false m e /\
    ((e = e1 - e2 - 53 + (d - 53) /\ t / 2 ^ (d - 53) <= Zpos m <= t / 2 ^ (d - 53) + 1
      /\ Zpos m < 2 ^ 53) \/
     (e = e1 - e2 - 53 + (d - 53) + 1 /\ Zpos m = 2 ^ 52 /\ t / 2 ^ (d - 53) = 2 ^ 53 - 1)).
Proof.
  intros H1 H2 He1 He2 t d.
  assert (Hd1 : Zpos (digits2_pos m1) = 53) by (apply digits2_unique; lia).
  assert (Hd2 : Zpos (digits2_pos m2) = 53) by (apply digits2_unique; lia).
  unfold fdiv, SFdiv, SFdiv_core_binary. cbn [Zdigits2 xorb].
  rewrite Hd1, Hd2, fexp_eq by lia.
  replace (Z.min (53 + e1 - (53 + e2) - 53) (e1 - e2)) with (e1 - e2 - 53) by lia.
  replace (e1 - e2 - (e1 - e2 - 53)) with 53 by lia. cbv iota.
  rewrite Z.shiftl_mul_pow2, div_eucl_spec by lia. fold t.
  assert (Ht : 2 ^ 52 <= t < 2 ^ 54).
  { unfold t. split.
    - apply Z.div_le_lower_bound; lia.
    - apply Z.div_lt_upper_bound; lia. }
  assert (Htd : 2 ^ (d - 1) <= t < 2 ^ d).
  { unfold d. destruct (Z.ltb_spec (Zpos m1) (Zpos m2)).
    - split; [lia|]. unfold t. apply Z.div_lt_upper_bound; lia.
    - split; [|lia]. unfold t. apply Z.div_le_lower_bound; lia. }
  assert (Hd : 53 <= d <= 54) by (unfold d; destruct (Zpos m1 <? Zpos m2); lia).
  destruct t as [|q|q] eqn:Et; try lia.
  pose proof (digits2_unique q d Htd) as Hdq.
  destruct (binary_round_aux_spec false q (e1 - e2 - 53)
              (new_location (Zpos m2) ((Zpos m1 * 2 ^ 53) mod Zpos m2)) d Hdq)
    as (m & e & Hres & Hpost); try lia.
  exists m, e. split; [exact Hres|]. exact Hpost.
Qed.


Lemma accuracy_range k n :
  0 < n < 2 ^ 53 -> 0 <= k <= n ->
  fdiv (float_of_Z k) (float_of_Z n) = S754_zero false \/
  fdiv (float_of_Z k) (float_of_Z n) = f1_0 \/
  exists m e, fdiv (float_of_Z k) (float_of_Z n) = S754_finite false m e /\
              (e < -53 \/ (e = -53 /\ Zpos m < 2 ^ 53)).
Proof.
  intros Hn Hk.
  destruct (float_of_Z_spec n Hn) as (m2 & e2 & En & Hm2 & He2 & Hv2).
  destruct (Z.eq_dec k 0) as [->|Hk0].
  { left. rewrite En. reflexivity. }
  destruct (float_of_Z_spec k ltac:(lia)) as (m1 & e1 & Ek & Hm1 & He1 & Hv1).
  rewrite Ek, En.
  pose proof (pow2_pos (- e1) ltac:(lia)) as Hp1.
  pose proof (pow2_pos (- e2) ltac:(lia)) as Hp2.
  assert (Hle : e1 <= e2).
  { destruct (Z.leb_spec e1 e2); auto. exfalso.
    assert (E : 2 ^ (- e2) = 2 ^ (- e1) * 2 ^ (e1 - e2))
      by (rewrite <- Z.pow_add_r by lia; f_equal; lia).
    assert (2 ^ 1 <= 2 ^ (e1 - e2)) by (apply Z.pow_le_mono_r; lia).
    change (2 ^ 1) with 2 in *. nia. }
  destruct (Z.eq_dec e1 e2) as [Heq|Hne].
  - subst e2. assert (Hmle : Zpos m1 <= Zpos m2) by nia.
    destruct (Z.eq_dec (Zpos m1) (Zpos m2)) as [Hmm|Hmm].
    + right; left. injection Hmm as ->. apply fdiv_self.
    + destruct (fdiv_spec m1 e1 m2 e1 Hm1 Hm2 ltac:(lia) ltac:(lia))
        as (m & e & Hres & Hpost).
      destruct (Z.ltb_spec (Zpos m1) (Zpos m2)); try lia.
      destruct Hpost as [(He & _ & Hlt)|(He & Hm & _)].
      * right; right. exists m, e. split; auto. right. lia.
      * right; left. rewrite Hres. unfold f1_0. f_equal; [|lia].
        apply Pos2Z.inj. rewrite Hm. reflexivity.
  - destruct (fdiv_spec m1 e1 m2 e2 Hm1 Hm2 ltac:(lia) ltac:(lia))
      as (m & e & Hres & Hpost).
    destruct (Zpos m1 <? Zpos m2);
      destruct Hpost as [(He & _ & Hlt)|(He & Hm & _)].
    + right; right. exists m, e. split; auto. left. lia.
    + right; right. exists m, e. split; auto.
      destruct (Z.eq_dec e (-53)); [right|left]; lia.
    + right; right. exists m, e. split; auto.
      destruct (Z.eq_dec e (-53)); [right|left]; lia.
    + destruct (Z.eq_dec e (-52)) as [E52|].
      * right; left. rewrite Hres. unfold f1_0. f_equal; [|lia].
        apply Pos2Z.inj. rewrite Hm. reflexivity.
      * right; right. exists m, e. split; auto.
        destruct (Z.eq_dec e (-53)); [right|left]; lia.
Qed.

Lemma fmul_half m :
  2 ^ 52 <= Zpos m < 2 ^ 53 ->
  fmul (S754_finite false m (-53)) f0_5 = S754_finite false m (-54).
Proof.
  intros Hm. unfold fmul, f0_5, SFmul. cbn [xorb].
  change (-53 + -53) with (-106).
  rewrite (binary_round_aux_exact false m 52 (-106)); auto; try lia.
Qed.

Lemma fadd_half m :
  2 ^ 52 <= Zpos m < 2 ^ 53 ->
  exists m' e',
    fadd f0_5 (S754_finite false m (-54)) = S754_finite false m' e' /\
    ((e' = -53 /\ Zpos m <= Zpos m') \/ e' = -52).
Proof.
  intros Hm. unfold fadd, f0_5, SFadd.
  change (Z.min (-53) (-54)) with (-54).
  change (fst (shl_align 4503599627370496 (-53) (-54))) with 9007199254740992%positive.
  change (fst (shl_align m (-54) (-54))) with m.
  cbn [cond_Zopp]. change (Zpos 9007199254740992 + Zpos m) with (Zpos (9007199254740992 + m)).
  cbn [binary_normalize]. unfold binary_round.
  assert (Hd : Zpos (digits2_pos (9007199254740992 + m)) = 54)
    by (apply digits2_unique; lia).
  rewrite Hd. change (fexp prec emax (54 + -54)) with (-53).
  change (shl_align (9007199254740992 + m) (-54) (-53)) with ((9007199254740992 + m)%positive, -54).
  cbv iota beta.
  destruct (binary_round_aux_spec false (9007199254740992 + m) (-54) loc_Exact 54 Hd)
    as (m' & e' & Hres & Hpost); try lia.
  exists m', e'. split; [exact Hres|].
  change (2 ^ (54 - 53)) with 2 in Hpost.
  destruct Hpost as [(He & Hb & _)|(He & _)]; [left|right; lia].
  split; [lia|].
  assert (Zpos m <= Zpos (9007199254740992 + m) / 2); [|lia].
  apply Z.div_le_lower_bound; lia.
Qed.

Lemma weighted_ge_accuracy m :
  2 ^ 52 <= Zpos m < 2 ^ 53 ->
  SFltb (fadd f0_5 (fmul (S754_finite false m (-53)) f0_5))
        (S754_finite false m (-53)) = false.
Proof.
  intros Hm. rewrite fmul_half by exact Hm.
  destruct (fadd_half m Hm) as (m' & e' & -> & [(-> & Hle)| ->]).
  - unfold SFltb, SFcompare. rewrite Z.compare_refl.
    destruct (Pos.compare_cont Eq m' m) eqn:Hc; auto.
    exfalso. change (Pos.compare_cont Eq m' m) with (Pos.compare m' m) in Hc.
    rewrite Pos.compare_lt_iff in Hc. lia.
  - reflexivity.
Qed.

(** ** Truncated products [int(0.8 * n)] and [int(0.2 * n)]

    Both literals have the mantissa [(2^55 + 2) / 5]; the product with
    an integer below [2^50] is rounded once and then truncated, and the
    result is the exact integer quotient. *)
Lemma int_of_scaled (E K c n : Z) :
  (E = -53 /\ K = 0 /\ c = 4) \/ (E = -55 /\ K = 2 /\ c = 1) ->
  0 <= n < 2 ^ 50 ->
  x <- float_of_int n ;; int_of_float (fmul (S754_finite false 7205759403792794 E) x)
  = Ok (c * n / 5).
Proof.
  intros HE Hn.
  destruct (Z.eq_dec n 0) as [->|Hn0].
  { destruct HE as [(-> & _ & ->)|(-> & _ & ->)]; reflexivity. }
  destruct (float_of_Z_spec n ltac:(lia)) as (mn & en & Efl & Hmn & Hen & Hval).
  unfold float_of_int. rewrite Efl. cbn [bind].
  set (B := 2 ^ (- en)) in *.
  assert (Hen3 : en <= -3).
  { destruct (Z.leb_spec en (-3)) as [|H3]; auto. exfalso.
    assert (H : 2 ^ (- en) <= 2 ^ 2) by (apply Z.pow_le_mono_r; lia).
    fold B in H. change (2 ^ 2) with 4 in H. nia. }
  assert (HB : 8 <= B).
  { unfold B. change 8 with (2 ^ 3). apply Z.pow_le_mono_r; lia. }
  assert (HEb : -55 <= E <= -53) by lia.
  unfold fmul, SFmul. cbn [xorb].
  set (M := 7205759403792794%positive).
  assert (HM : 5 * Zpos M = 2 ^ 55 + 2) by reflexivity.
  set (q := (M * mn)%positive).
  assert (Hq : Zpos q = Zpos M * Zpos mn) by reflexivity.
  assert (Hqb : 2 ^ 104 <= Zpos q < 2 ^ 106) by (rewrite Hq; unfold M; nia).
  set (d := if Zpos q <? 2 ^ 105 then 105 else 106).
  assert (Hd : Zpos (digits2_pos q) = d).
  { apply digits2_unique. unfold d. destruct (Z.ltb_spec (Zpos q) (2 ^ 105)); simpl; lia. }
  assert (Hd' : d = 105 \/ d = 106) by (unfold d; destruct (Zpos q <? 2 ^ 105); auto).
  destruct (binary_round_aux_spec false q (E + en) loc_Exact d Hd)
    as (m' & e' & Hres & Hpost); try lia.
  rewrite Hres. clear Hres.
  set (F := c * n / 5).
  assert (HF : 5 * F <= c * n < 5 * F + 5).
  { unfold F. pose proof (Z.div_mod (c * n) 5 ltac:(lia)).
    pose proof (Z.mod_pos_bound (c * n) 5 ltac:(lia)). lia. }
  set (P := 2 ^ (53 + K)).
  assert (HP : c * P = 2 ^ 55 /\ 2 ^ 53 <= P /\ 53 + K = - E).
  { unfold P. destruct HE as [(-> & -> & ->)|(-> & -> & ->)]; simpl; lia. }
  destruct HP as (HcP & HP53 & HKE).
  set (S := 2 ^ (d - 53)) in *.
  set (t := Zpos q / S) in *.
  set (x := E + en + (d - 53)) in *.
  assert (Hx : x <= -3) by (unfold x; lia).
  set (A := 2 ^ (- x)).
  assert (HS : 0 < S <= 2 ^ 53).
  { unfold S. split; [apply pow2_pos; lia|]. apply Z.pow_le_mono_r; lia. }
  assert (HA : 0 < A) by (apply pow2_pos; lia).
  assert (HSA : S * A = P * B).
  { unfold S, A, P, B. rewrite <- !Z.pow_add_r by lia. f_equal. unfold x. lia. }
  assert (Ht : t * S <= Zpos q < (t + 1) * S).
  { unfold t. pose proof (Z.div_mod (Zpos q) S ltac:(lia)).
    pose proof (Z.mod_pos_bound (Zpos q) S ltac:(lia)). lia. }
  set (nB := n * B) in *.
  assert (HnB : 2 ^ 52 <= nB < 2 ^ 53) by lia.
  assert (H5q : 5 * Zpos q = (2 ^ 55 + 2) * nB) by (rewrite Hq, Hval; lia).
  assert (HPB : 2 ^ 56 <= P * B) by nia.
  assert (G1 : F * A <= t).
  { destruct (Z.leb_spec (F * A) t) as [|Hc]; auto. exfalso.
    assert (E1 : (t + 1) * S <= F * (P * B)).
    { rewrite <- HSA. replace (F * (S * A)) with (F * A * S) by lia.
      apply Z.mul_le_mono_nonneg_r; lia. }
    assert (E2 : 5 * F * (P * B) <= 2 ^ 55 * nB).
    { rewrite <- HcP. unfold nB.
      replace (c * P * (n * B)) with (c * n * (P * B)) by lia.
      apply Z.mul_le_mono_nonneg_r; lia. }
    lia. }
  assert (G2 : t + 1 < (F + 1) * A).
  { destruct (Z.ltb_spec (t + 1) ((F + 1) * A)) as [|Hc]; auto. exfalso.
    assert (E1 : (F + 1) * (P * B) <= (t + 1) * S).
    { rewrite <- HSA. replace ((F + 1) * (S * A)) with ((F + 1) * A * S) by lia.
      apply Z.mul_le_mono_nonneg_r; lia. }
    assert (E2 : 2 ^ 55 * nB + P * B <= 5 * (F + 1) * (P * B)).
    { rewrite <- HcP. unfold nB.
      replace (c * P * (n * B) + P * B) with ((c * n + 1) * (P * B)) by lia.
      apply Z.mul_le_mono_nonneg_r; lia. }
    lia. }
  assert (HF0 : 0 <= F) by (unfold F; apply Z.div_pos; lia).
  destruct Hpost as [(He & Hm & _)|(He & Hm & Ht')].
  - subst e'. fold x. destruct x as [|px|px] eqn:Ex; try lia.
    cbn [int_of_float]. f_equal.
    change (2 ^ Zpos px) with A.
    symmetry. apply Z.div_unique with (Zpos m' - F * A); lia.
  - subst e'. fold x.
    assert (HA2 : A = 2 * 2 ^ (- (x + 1))).
    { unfold A. rewrite <- Z.pow_succ_r by lia. f_equal. lia. }
    destruct (x + 1) as [|px|px] eqn:Ex; try lia.
    cbn [int_of_float]. f_equal.
    change (- Zneg px) with (Zpos px) in HA2.
    set (A' := 2 ^ Zpos px) in *.
    symmetry. apply Z.div_unique with (Zpos m' - F * A'); lia.
Qed.


Lemma expected_test_size_exact n :
  0 <= n < 2 ^ 50 -> expected_test_size n = Ok (n / 5).
Proof.
  intros Hn. unfold expected_test_size, f0_2.
  rewrite (int_of_scaled (-55) 2 1 n) by (auto; lia).
  now rewrite Z.mul_1_l.
Qed.

Lemma test_start_idx_exact n :
  0 <= n < 2 ^ 50 -> test_start_idx n = Ok (4 * n / 5).
Proof.
  intros Hn. unfold test_start_idx, f0_8.
  now rewrite (int_of_scaled (-53) 0 4 n) by (auto; lia).
Qed.

(** ** Order and products *)

Lemma SFcompare_antisym x y :
  SFcompare y x = option_map CompOpp (SFcompare x y).
Proof.
  destruct x as [sx|sx| |sx mx ex], y as [sy|sy| |sy my ey];
    try destruct sx; try destruct sy; try reflexivity;
    cbn [SFcompare option_map];
    rewrite (Z.compare_antisym ex ey);
    destruct (ex ?= ey); cbn [CompOpp]; try reflexivity;
    change (Pos.compare_cont Eq my mx) with (Pos.compare my mx);
    change (Pos.compare_cont Eq mx my) with (Pos.compare mx my);
    rewrite (Pos.compare_antisym mx my);
    destruct (mx ?= my)%positive; reflexivity.
Qed.

Lemma flt_asym a b : flt a b = true -> flt b a = false.
Proof.
  unfold flt, SFltb. rewrite (SFcompare_antisym a b).
  destruct (SFcompare a b) as [[]|]; cbn; congruence.
Qed.

Lemma flt_irrefl a : flt a a = false.
Proof.
  destruct (flt a a) eqn:H; auto.
  pose proof (flt_asym a a H). congruence.
Qed.

Lemma fmax_not_below a b : flt (fmax a b) a = false.
Proof.
  unfold fmax. destruct (flt a b) eqn:H.
  - now apply flt_asym.
  - apply flt_irrefl.
Qed.

Lemma fmax_cases a b :
  (flt a b = false /\ fmax a b = a) \/ (flt a b = true /\ fmax a b = b).
Proof. unfold fmax. destruct (flt a b); auto. Qed.

Lemma fmul_comm x y : fmul x y = fmul y x.
Proof.
  unfold fmul.
  destruct x as [sx|sx| |sx mx ex], y as [sy|sy| |sy my ey];
    cbn [SFmul]; rewrite ?(xorb_comm sx sy); try reflexivity.
  now rewrite (Pos.mul_comm mx my), (Z.add_comm ex ey).
Qed.

(* ================================================================== *)
(** * Facts about arrays and data frames                               *)
(* ================================================================== *)

(** Characters, numbers of one kind and booleans: [==] is equality. *)
Lemma equal_text x t : equal x (Str t) = true <-> x = Str t.
Proof.
  destruct x as [s| | |]; cbn; try (split; discriminate).
  rewrite String.eqb_eq. split; congruence.
Qed.

Lemma feq_refl x : x <> S754_nan -> feq x x = true.
Proof.
  unfold feq, SFeqb, SFcompare.
  destruct x as [[|]|[|]| |[|] m e]; try reflexivity; try congruence;
    intros _; rewrite Z.compare_refl; cbn;
    rewrite Pos.compare_cont_refl; reflexivity.
Qed.

(** A value equals itself unless it is NaN. *)
Lemma equal_refl c : equal c c = negb (isna c).
Proof.
  destruct c as [s|z|x|b]; cbn.
  - apply String.eqb_refl.
  - apply Z.eqb_refl.
  - destruct x as [[|]|[|]| |[|] m e]; try reflexivity;
      apply feq_refl; discriminate.
  - now destruct b.
Qed.

Lemma array_equal_spec a b :
  array_equal a b = true <-> Forall2 (fun x y => equal x y = true) a b.
Proof.
  unfold array_equal. split.
  - revert b. induction a as [|x a IH]; intros [|y b] H; try discriminate;
      constructor.
    + cbn in H. rewrite !andb_true_iff in H. tauto.
    + apply IH. cbn in H. rewrite !andb_true_iff in *. tauto.
  - induction 1 as [|x y a b Hxy _ IH]; auto.
    cbn. rewrite Hxy. exact IH.
Qed.

Lemma Forall2_equal_refl a :
  Forall (fun c => isna c = false) a -> Forall2 (fun x y => equal x y = true) a a.
Proof.
  induction 1 as [|c a Hc _ IH]; constructor; auto.
  now rewrite equal_refl, Hc.
Qed.

Lemma Forall2_equal_refl_inv a :
  Forall2 (fun x y => equal x y = true) a a -> Forall (fun c => isna c = false) a.
Proof.
  induction a as [|c a IH]; intros H; constructor; inversion H; subst; auto.
  rewrite equal_refl in *. now destruct (isna c).
Qed.


Lemma count_equal_bounds a b :
  0 <= count_equal a b <= Z.of_nat (List.length a).
Proof.
  unfold count_equal. split; [lia|]. apply inj_le.
  revert b. induction a as [|x a IH]; intros [|y b]; cbn; try lia.
  specialize (IH b). destruct (equal x y); cbn; lia.
Qed.



Lemma Forall2_nth {A B} (R : A -> B -> Prop) a b :
  Forall2 R a b <->
  List.length a = List.length b /\
  forall i x y, nth_error a i = Some x -> nth_error b i = Some y -> R x y.
Proof.
  split.
  - induction 1 as [|x y a b Hxy _ (Hlen & IH)]; split; cbn; auto.
    + intros [|i]; discriminate.
    + intros [|i] x' y'; cbn.
      * now intros [= <-] [= <-].
      * apply IH.
  - revert b. induction a as [|x a IH]; intros [|y b] (Hlen & H);
      try discriminate; constructor.
    + apply (H O); reflexivity.
    + apply IH. split; [now injection Hlen|].
      intros i. apply (H (S i)).
Qed.

Lemma lookup_column_map (f : list cell -> list cell) col cols :
  lookup_column col (map (fun cv => (fst cv, f (snd cv))) cols)
  = (v <- lookup_column col cols ;; Ok (f v)).
Proof.
  induction cols as [|[c v] cols IH]; auto.
  cbn. destruct (String.eqb col c); auto.
Qed.

Lemma skipn_RangeIndex k n :
  skipn k (RangeIndex n) = map Z.of_nat (seq k (n - k)).
Proof.
  unfold RangeIndex. rewrite skipn_map, skipn_seq. reflexivity.
Qed.

Lemma searchsorted_left_from k n :
  (1 <= k)%nat -> searchsorted_left (skipn k (RangeIndex n)) 1 = O.
Proof.
  intros Hk. rewrite skipn_RangeIndex.
  destruct (n - k)%nat as [|j]; auto.
  cbn. destruct (Z.ltb_spec (Z.of_nat k) 1); auto. lia.
Qed.

Lemma searchsorted_left_zero n :
  searchsorted_left (RangeIndex n) 1 = Nat.min 1 n.
Proof.
  destruct n as [|[|n]]; reflexivity.
Qed.

(* ================================================================== *)
(** * Facts about [grade]                                              *)
(* ================================================================== *)

Lemma weighted_sum_three ts cs ca :
  weighted_sum [("test_size_correct"%string, ts); ("correct_test_split"%string, cs);
                ("classification_accuracy"%string, ca)] grade_weights
  = Ok (fadd (fadd (fadd f0_0 (fmul ts f0_2)) (fmul cs f0_3)) (fmul ca f0_5)).
Proof. reflexivity. Qed.

Lemma size_score_cases a e : size_score a e = f1_0 \/ size_score a e = f0_5.
Proof. unfold size_score. destruct (Z.abs (a - e) <=? size_tolerance); auto. Qed.

Lemma actual_match_score_cases a e :
  actual_match_score a e = f1_0 \/ actual_match_score a e = f0_0.
Proof.
  unfold actual_match_score.
  destruct (Nat.eqb _ _); auto. destruct (array_equal a e); auto.
Qed.

Lemma actual_match_score_one a e :
  actual_match_score a e = f1_0 <-> spec_elementwise_equal a e.
Proof.
  unfold spec_elementwise_equal.
  rewrite <- (Forall2_nth (fun x y => equal x y = true)), <- array_equal_spec.
  unfold actual_match_score, array_equal.
  destruct (Nat.eqb _ _); cbn [andb]; [|split; discriminate].
  destruct (forallb _ _); split; auto; discriminate.
Qed.

Lemma actual_match_score_zero a e :
  actual_match_score a e = f0_0 <-> ~ spec_elementwise_equal a e.
Proof.
  rewrite <- actual_match_score_one.
  unfold actual_match_score.
  destruct (Nat.eqb _ _); [destruct (array_equal a e)|];
    split; auto; try discriminate; intros H; now contradiction H.
Qed.

(** The code's accumulation from [0] agrees with the formula of the
    specification. *)
Lemma weighted_sum_is_weighted ts cs ca :
  ts = f1_0 \/ ts = f0_5 ->
  fadd (fadd (fadd f0_0 (fmul ts f0_2)) (fmul cs f0_3)) (fmul ca f0_5) = weighted ts cs ca.
Proof.
  intros Hts. unfold weighted.
  rewrite (fmul_comm cs f0_3), (fmul_comm ca f0_5).
  destruct Hts as [-> | ->]; reflexivity.
Qed.

Lemma read_csv_path_exists fs path df :
  read_csv fs path = Ok df -> path_exists fs path = true.
Proof.
  unfold read_csv, path_exists. destruct (fs path); [reflexivity|discriminate].
Qed.

Lemma reaches_scoring_path_exists fs s :
  reaches_scoring fs s -> path_exists fs predictions_path = true.
Proof.
  intros (H & _). unfold read_csv in H. unfold path_exists.
  destruct (fs predictions_path); [reflexivity|discriminate].
Qed.

(** The result of a run that reaches scoring, field by field. *)
Lemma grade_scored fs t s :
  reaches_scoring fs s ->
  let a := actual_values s in
  let p := predicted_values s in
  let subs := [("test_size_correct"%string, ts_of s);
               ("correct_test_split"%string, cs_of s);
               ("classification_accuracy"%string, ca_of s)] in
  score (grade fs t) = apply_bonus subs (weighted (ts_of s) (cs_of s) (ca_of s)) (ca_of s) /\
  subscores (grade fs t) = subs /\
  weights (grade fs t) = grade_weights /\
  feedback (grade fs t) =
    Some (join " | "
            ((if flt (ts_of s) f1_0
              then [size_feedback (len (predictions_df s)) (expected_size s)] else []) ++
             (if feq (cs_of s) f0_0 then [split_feedback] else []) ++
             (if accuracy_defined a p
              then accuracy_feedback (accuracy a p) (fsub f1_0 (accuracy a p))
              else [no_accuracy_feedback]))) /\
  error_tag (grade fs t) = None.
Proof.
  intros H a p subs.
  pose proof (reaches_scoring_path_exists fs s H) as Hex.
  destruct H as (H1 & H2 & H3 & H4 & H5 & H6 & H7 & H8).
  unfold grade. rewrite Hex. cbn [negb].
  unfold grade_try. rewrite H1. cbn [bind]. rewrite H2, H3. cbn [bind].
  rewrite H4. cbn [bind]. rewrite H5. cbn [bind]. rewrite H6. cbn [bind].
  rewrite H7. cbn [bind]. rewrite H8. cbn [bind].
  fold (ts_of s) (cs_of s). fold a p.
  rewrite <- (weighted_sum_is_weighted (ts_of s) (cs_of s) (ca_of s))
    by apply size_score_cases.
  unfold subs, ca_of. fold a p.
  destruct (accuracy_defined a p);
    cbn [dict_set String.eqb Ascii.eqb Bool.eqb];
    rewrite weighted_sum_three; cbn [bind score subscores weights feedback details];
    destruct (flt (ts_of s) f1_0), (feq (cs_of s) f0_0); repeat split; reflexivity.
Qed.

(** Every run ends in one of four ways. *)
Lemma grade_try_cases fs :
  (exists e, grade_try fs = Raise e) \/
  (exists df,
      read_csv fs predictions_path = Ok df /\
      (fst (find_columns (columns df)) = None \/ snd (find_columns (columns df)) = None) /\
      exists r, grade_try fs = Ok r /\
                score r = f0_0 /\ subscores r = [] /\ weights r = [] /\
                details r = Some [("error"%string, AStr "missing_required_columns");
                                  ("columns"%string, AList (columns df))]) \/
  (exists s, reaches_scoring fs s).
Proof.
  unfold grade_try.
  destruct (read_csv fs predictions_path) as [df|e] eqn:H1; cbn [bind];
    [|left; exists e; reflexivity].
  destruct (find_columns (columns df)) as [[ac|] [pc|]] eqn:H2;
    try (right; left; exists df; rewrite H2; cbn [fst snd];
         split; [reflexivity|]; split; [auto|];
         eexists; split; [reflexivity|]; repeat split).
  destruct (read_csv fs nba_path) as [nba|e] eqn:H3; cbn [bind];
    [|left; exists e; reflexivity].
  destruct (expected_test_size (len nba)) as [es|e] eqn:H4; cbn [bind];
    [|left; exists e; reflexivity].
  destruct (test_start_idx (len nba)) as [st|e] eqn:H5; cbn [bind];
    [|left; exists e; reflexivity].
  destruct (expected_actuals st nba) as [ex|e] eqn:H6; cbn [bind];
    [|left; exists e; reflexivity].
  destruct (getitem df ac) as [a|e] eqn:H7; cbn [bind];
    [|left; exists e; reflexivity].
  destruct (getitem df pc) as [p|e] eqn:H8; cbn [bind];
    [|left; exists e; reflexivity].
  right; right.
  exists {| predictions_df := df; actual_col := ac; predicted_col := pc;
            nba_data := nba; expected_size := es; start_idx := st;
            expected_labels := ex; actual_values := a; predicted_values := p |}.
  repeat split; assumption.
Qed.

Lemma subscores_lookup ts cs ca r :
  subscores r = [("test_size_correct"%string, ts); ("correct_test_split"%string, cs);
                 ("classification_accuracy"%string, ca)] ->
  subscore "test_size_correct" r = Some ts /\
  subscore "correct_test_split" r = Some cs /\
  subscore "classification_accuracy" r = Some ca.
Proof. unfold subscore. intros ->. repeat split. Qed.

Lemma len_read_frame nrows cols :
  len {| index := RangeIndex nrows; data := cols |} = Z.of_nat nrows.
Proof. unfold len, RangeIndex. cbn [index]. now rewrite length_map, length_seq. Qed.

Lemma find_rev_none {A} (P : A -> bool) l :
  forallb (fun x => negb (P x)) l = true -> find P (rev l) = None.
Proof.
  intros H. rewrite forallb_forall in H.
  assert (Hin : forall x, In x (rev l) -> P x = false).
  { intros x Hx. apply in_rev in Hx. apply H in Hx. now destruct (P x). }
  induction (rev l) as [|y l' IH]; auto.
  cbn. rewrite (Hin y) by now left. apply IH. intros x Hx. apply Hin. now right.
Qed.

Lemma find_columns_last cols :
  find_columns cols =
  (find is_actual (rev cols),
   find (fun c => (negb (is_actual c) && is_predicted c)%bool) (rev cols)).
Proof.
  unfold find_columns.
  induction cols as [|c cols IH] using rev_ind; auto.
  rewrite fold_left_app, IH, rev_unit. cbn [fold_left find].
  unfold find_columns_step. fold (is_actual c) (is_predicted c). cbn [fst snd].
  destruct (is_actual c), (is_predicted c); reflexivity.
Qed.

(* ================================================================== *)
(** * The grading contract                                             *)
(* ================================================================== *)

(** C1, the claim as stated fails: on five rows the boundary is 4 and
    the held-out slice is the single label C; the grader expects that
    label, where dropping the first element of the slice would leave
    nothing. *)
Lemma C1_counterexample :
  test_start_idx (len Sample.nba5_df) = Ok 4 /\
  expected_actuals 4 Sample.nba5_df = Ok [Str "C"] /\
  expected_actuals 4 Sample.nba5_df <> Ok (spec_ExpectedHeldOut 4 Sample.pos5).
Proof.
  repeat split; try reflexivity. vm_compute. discriminate.
Qed.

(** C1, amended: for a ground-truth table of fewer than 2^50 rows the
    boundary is the integer quotient of 4 * rows by 5, and the expected
    labels are the Pos labels of the rows labelled max(1, boundary) and
    up.  With two rows or more that is the whole slice from the
    boundary to the end, its first element included. *)
Theorem C1_expected_held_out :
  forall (nrows : nat) (cols : list (string * list cell)) (pos : list cell),
    lookup_column "Pos" cols = Ok pos ->
    List.length pos = nrows ->
    Z.of_nat nrows < 2 ^ 50 ->
    let nba := {| index := RangeIndex nrows; data := cols |} in
    let boundary := 4 * Z.of_nat nrows / 5 in
    test_start_idx (len nba) = Ok boundary /\
    expected_actuals boundary nba = Ok (skipn (Z.to_nat (Z.max 1 boundary)) pos) /\
    ((2 <= nrows)%nat ->
     expected_actuals boundary nba = Ok (skipn (Z.to_nat boundary) pos)).
Proof.
  intros nrows cols pos Hpos Hlen Hn nba boundary.
  assert (Hb0 : 0 <= boundary) by (unfold boundary; apply Z.div_pos; lia).
  assert (Hexp : expected_actuals boundary nba
                 = Ok (skipn (searchsorted_left
                                (skipn (Z.to_nat boundary) (RangeIndex nrows)) 1)
                         (skipn (Z.to_nat boundary) pos))).
  { unfold expected_actuals, loc_from, iloc_from, getitem, slice_start.
    cbn [index data]. destruct (Z.ltb_spec boundary 0) as [|_]; [lia|].
    rewrite lookup_column_map. unfold nba. cbn [index data]. now rewrite Hpos. }
  split; [|split].
  - unfold nba. rewrite len_read_frame. apply test_start_idx_exact. lia.
  - rewrite Hexp. f_equal.
    destruct (Z.eq_dec boundary 0) as [Hz|Hnz].
    + rewrite Hz. cbn [Z.to_nat Z.max skipn]. rewrite searchsorted_left_zero.
      assert (Hsmall : (nrows <= 1)%nat).
      { unfold boundary in Hz.
        destruct (Nat.le_gt_cases nrows 1) as [|Hgt]; auto. exfalso.
        assert (1 <= 4 * Z.of_nat nrows / 5) by (apply Z.div_le_lower_bound; lia).
        lia. }
      destruct nrows as [|[|k]]; try lia.
      * destruct pos; [reflexivity|discriminate].
      * reflexivity.
    + rewrite searchsorted_left_from by lia.
      replace (Z.max 1 boundary) with boundary by lia. reflexivity.
  - intros H2. rewrite Hexp. f_equal.
    assert (1 <= boundary).
    { unfold boundary. apply Z.div_le_lower_bound; lia. }
    now rewrite searchsorted_left_from by lia.
Qed.

Lemma C1_expected_held_out_witness :
  expected_actuals 8 {| index := RangeIndex 10; data := Sample.nba10_cols |}
  = Ok [Str "PF"; Str "C"].
Proof.
  refine (proj2 (proj2 (C1_expected_held_out 10 Sample.nba10_cols
            [Str "PG"; Str "SG"; Str "SF"; Str "PF"; Str "C";
             Str "PG"; Str "SG"; Str "SF"; Str "PF"; Str "C"]
            _ _ _)) _).
  - reflexivity.
  - reflexivity.
  - reflexivity.
  - cbv. lia.
Defined.




Lemma all_components_perfect_three ts cs ca :
  all_components_perfect
    [("test_size_correct"%string, ts); ("correct_test_split"%string, cs);
     ("classification_accuracy"%string, ca)]
  = (fge ts f0_95 && fge cs f0_95 && fge ca f0_95)%bool.
Proof.
  unfold all_components_perfect. cbn [values map snd forallb].
  now rewrite andb_true_r, andb_assoc.
Qed.

(** C3: the final score of a scored submission is the weighted sum
    0.2*test_size_correct + 0.3*correct_test_split +
    0.5*classification_accuracy, replaced by the larger of that sum and
    the accuracy when every sub-score is at least 0.95; the replacement
    never takes the score below the weighted sum. *)
Theorem C3_final_score :
  forall fs t s,
    reaches_scoring fs s ->
    exists ts cs ca,
      subscores (grade fs t) =
        [("test_size_correct"%string, ts); ("correct_test_split"%string, cs);
         ("classification_accuracy"%string, ca)] /\
      score (grade fs t) =
        (if (fge ts f0_95 && fge cs f0_95 && fge ca f0_95)%bool
         then fmax (weighted ts cs ca) ca
         else weighted ts cs ca) /\
      flt (score (grade fs t)) (weighted ts cs ca) = false /\
      (score (grade fs t) = weighted ts cs ca \/
       (score (grade fs t) = ca /\ flt (weighted ts cs ca) ca = true)).
Proof.
  intros fs t s H.
  destruct (grade_scored fs t s H) as (Hscore & Hsubs & _).
  exists (ts_of s), (cs_of s), (ca_of s).
  split; [exact Hsubs|].
  unfold apply_bonus in Hscore. rewrite all_components_perfect_three in Hscore.
  split; [exact Hscore|].
  rewrite Hscore.
  destruct (fge (ts_of s) f0_95 && fge (cs_of s) f0_95 && fge (ca_of s) f0_95)%bool.
  - split; [apply fmax_not_below|].
    destruct (fmax_cases (weighted (ts_of s) (cs_of s) (ca_of s)) (ca_of s))
      as [(_ & ->)|(Hlt & ->)]; auto.
  - split; [apply flt_irrefl|now left].
Qed.

Lemma C3_final_score_witness :
  reaches_scoring Sample.fs_half Sample.s_half /\
  score (grade Sample.fs_half EmptyString) = weighted f1_0 f1_0 f0_5.
Proof.
  assert (H : reaches_scoring Sample.fs_half Sample.s_half)
    by (repeat split; reflexivity).
  split; [exact H|].
  destruct (C3_final_score Sample.fs_half EmptyString Sample.s_half H)
    as (ts & cs & ca & Hsubs & Hscore & _).
  vm_compute in Hsubs. injection Hsubs as <- <- <-. exact Hscore.
Defined.

(** C4, the claim as stated fails: with two headers that contain
    "actual", the role goes to the last of them, not to the first. *)
Lemma C4_counterexample :
  fst (find_columns Sample.headers_two_actual) = Some "actual_position_raw"%string /\
  find is_actual Sample.headers_two_actual = Some "actual_position"%string /\
  fst (find_columns Sample.headers_two_actual) <> find is_actual Sample.headers_two_actual.
Proof.
  repeat split; try reflexivity. vm_compute. discriminate.
Qed.

(** C4, amended: each role is resolved to the last header that matches
    it (case-insensitive substring), where a header that contains
    "actual" is never taken for the predicted role; when no header
    contains "actual", or none contains "predicted", grading ends with
    score 0.0 and the error tag missing_required_columns. *)
Theorem C4_column_resolution :
  forall fs t df,
    read_csv fs predictions_path = Ok df ->
    let cols := columns df in
    find_columns cols =
      (find is_actual (rev cols),
       find (fun c => (negb (is_actual c) && is_predicted c)%bool) (rev cols)) /\
    (forallb (fun c => negb (is_actual c)) cols = true \/
     forallb (fun c => negb (is_predicted c)) cols = true ->
     score (grade fs t) = f0_0 /\
     error_tag (grade fs t) = Some (AStr "missing_required_columns") /\
     subscores (grade fs t) = []).
Proof.
  intros fs t df Hread cols.
  split; [apply find_columns_last|].
  intros Hnone.
  assert (Hunres : fst (find_columns cols) = None \/ snd (find_columns cols) = None).
  { rewrite find_columns_last. cbn [fst snd].
    destruct Hnone as [Ha|Hp]; [left; now apply find_rev_none|right].
    apply find_rev_none. rewrite forallb_forall in *. intros c Hc.
    specialize (Hp c Hc). destruct (is_predicted c); [discriminate|].
    now rewrite andb_false_r. }
  assert (Hex : path_exists fs predictions_path = true).
  { unfold read_csv in Hread. unfold path_exists.
    destruct (fs predictions_path); [reflexivity|discriminate]. }
  unfold grade. rewrite Hex. cbn [negb].
  unfold grade_try. rewrite Hread. cbn [bind]. fold cols.
  destruct (find_columns cols) as [[ac|] [pc|]]; cbn [fst snd] in Hunres;
    try (repeat split; reflexivity).
  destruct Hunres; discriminate.
Qed.

Lemma C4_column_resolution_witness :
  read_csv Sample.fs_no_roles predictions_path
    = Ok {| index := RangeIndex 0;
            data := [("name"%string, []); ("guess"%string, []); ("truth"%string, [])] |} /\
  error_tag (grade Sample.fs_no_roles EmptyString) = Some (AStr "missing_required_columns").
Proof.
  split; [reflexivity|].
  refine (proj1 (proj2 (proj2 (C4_column_resolution Sample.fs_no_roles EmptyString _ eq_refl) _))).
  left. reflexivity.
Defined.


Lemma size_score_perfect a e : fge (size_score a e) f0_95 = true -> size_score a e = f1_0.
Proof. destruct (size_score_cases a e) as [-> | ->]; [reflexivity|discriminate]. Qed.

Lemma actual_match_score_perfect a e :
  fge (actual_match_score a e) f0_95 = true -> actual_match_score a e = f1_0.
Proof.
  destruct (actual_match_score_cases a e) as [-> | ->]; [reflexivity|discriminate].
Qed.

(** With both other sub-scores at 1.0 the weighted sum is one half plus
    half the accuracy, and that is never below the accuracy. *)
Lemma weighted_perfect_split ca :
  weighted f1_0 f1_0 ca = fadd f0_5 (fmul f0_5 ca).
Proof. reflexivity. Qed.

Lemma bonus_noop_core k n :
  0 < n < 2 ^ 53 -> 0 <= k <= n ->
  fge (fdiv (float_of_Z k) (float_of_Z n)) f0_95 = true ->
  flt (weighted f1_0 f1_0 (fdiv (float_of_Z k) (float_of_Z n)))
      (fdiv (float_of_Z k) (float_of_Z n)) = false.
Proof.
  intros Hn Hk. rewrite weighted_perfect_split.
  destruct (accuracy_range k n Hn Hk) as [-> | [-> | (m & e & -> & He)]].
  - discriminate.
  - reflexivity.
  - intros Hge. unfold fge, f0_95, SFleb, SFcompare in Hge.
    destruct He as [He | (-> & Hm)].
    + destruct (Z.compare_spec (-53) e); lia || discriminate.
    + rewrite Z.compare_refl in Hge.
      change (Pos.compare_cont Eq 8556839292003942 m)
        with (Pos.compare 8556839292003942 m) in Hge.
      assert (Hlow : 2 ^ 52 <= Zpos m).
      { destruct (Pos.compare_spec 8556839292003942 m); try discriminate; subst; lia. }
      rewrite fmul_comm. apply weighted_ge_accuracy. lia.
Qed.




(** C6: the sub-score test_size_correct of a scored submission is 1.0
    when the number of submitted rows is within 2 of the expected test
    size and 0.5 otherwise, hence never 0.0; the expected test size is
    the integer part of a fifth of the ground-truth row count; for 100
    rows it is 20 and the split boundary is 80. *)
Theorem C6_test_size_correct :
  forall fs t s,
    reaches_scoring fs s ->
    let rows := len (predictions_df s) in
    let total := len (nba_data s) in
    exists v,
      subscore "test_size_correct" (grade fs t) = Some v /\
      expected_test_size total = Ok (expected_size s) /\
      (total < 2 ^ 50 -> expected_size s = total / 5) /\
      (Z.abs (rows - expected_size s) <= 2 -> v = f1_0) /\
      (2 < Z.abs (rows - expected_size s) -> v = f0_5) /\
      feq v f0_0 = false /\
      expected_test_size 100 = Ok 20 /\
      test_start_idx 100 = Ok 80.
Proof.
  intros fs t s H rows total.
  destruct (grade_scored fs t s H) as (_ & Hsubs & _).
  apply subscores_lookup in Hsubs. destruct Hsubs as (Hts & _).
  destruct H as (_ & _ & _ & Hes & _).
  exists (ts_of s). split; [exact Hts|]. split; [exact Hes|].
  split.
  { intros Htot. fold total in Hes.
    rewrite expected_test_size_exact in Hes by (unfold total, len in *; lia).
    congruence. }
  unfold ts_of, size_score, size_tolerance. fold rows.
  repeat split.
  - intros Hle. destruct (Z.leb_spec (Z.abs (rows - expected_size s)) 2); [reflexivity|lia].
  - intros Hgt. destruct (Z.leb_spec (Z.abs (rows - expected_size s)) 2); [lia|reflexivity].
  - destruct (Z.abs (rows - expected_size s) <=? 2); reflexivity.
Qed.

Lemma C6_test_size_correct_witness :
  reaches_scoring Sample.fs_half Sample.s_half /\
  subscore "test_size_correct" (grade Sample.fs_half EmptyString) = Some f1_0.
Proof.
  assert (H : reaches_scoring Sample.fs_half Sample.s_half)
    by (repeat split; reflexivity).
  split; [exact H|].
  destruct (C6_test_size_correct Sample.fs_half EmptyString Sample.s_half H)
    as (v & Hv & _ & _ & Hone & _).
  rewrite Hv. f_equal. apply Hone. cbv. discriminate.
Defined.

(** C7: [grade] is a total function, so every run returns a result to
    the caller.  A missing submission file gives score 0.0 and the
    error tag missing_predictions_file.  A submission that parses and
    lacks a header for one of the two roles gives score 0.0 and the
    error tag missing_required_columns.  An exception raised in the
    body gives score 0.0, the error tag processing_error and the
    message of the exception: so it is for a submission that cannot be
    parsed, and for a ground truth that cannot be read.  These three
    results carry no sub-scores and no weights; every other run reaches
    scoring and carries no error tag. *)
Theorem C7_failures_are_terminal :
  forall fs t,
    let failed (tag : string) :=
      score (grade fs t) = f0_0 /\
      error_tag (grade fs t) = Some (AStr tag) /\
      subscores (grade fs t) = [] /\ weights (grade fs t) = [] in
    (path_exists fs predictions_path = false ->
     failed "missing_predictions_file"%string /\
     details (grade fs t) = Some [("error"%string, AStr "missing_predictions_file")]) /\
    (forall df,
        read_csv fs predictions_path = Ok df ->
        fst (find_columns (columns df)) = None \/
        snd (find_columns (columns df)) = None ->
        failed "missing_required_columns"%string /\
        details (grade fs t) =
          Some [("error"%string, AStr "missing_required_columns");
                ("columns"%string, AList (columns df))]) /\
    (forall e,
        path_exists fs predictions_path = true ->
        grade_try fs = Raise e ->
        failed "processing_error"%string /\
        details (grade fs t) =
          Some [("error"%string, AStr "processing_error");
                ("exception"%string, AStr (str_of_exn e))]) /\
    (forall msg,
        fs predictions_path = Some (Unparsable msg) ->
        failed "processing_error"%string /\
        details (grade fs t) =
          Some [("error"%string, AStr "processing_error");
                ("exception"%string, AStr msg)]) /\
    (forall df a p e,
        read_csv fs predictions_path = Ok df ->
        find_columns (columns df) = (Some a, Some p) ->
        read_csv fs nba_path = Raise e ->
        failed "processing_error"%string /\
        details (grade fs t) =
          Some [("error"%string, AStr "processing_error");
                ("exception"%string, AStr (str_of_exn e))]) /\
    (failed "missing_predictions_file"%string \/
     failed "missing_required_columns"%string \/
     failed "processing_error"%string \/
     exists s, reaches_scoring fs s /\ error_tag (grade fs t) = None).
Proof.
  intros fs t failed.
  assert (Hraise : forall e,
             path_exists fs predictions_path = true ->
             grade_try fs = Raise e ->
             failed "processing_error"%string /\
             details (grade fs t) =
               Some [("error"%string, AStr "processing_error");
                     ("exception"%string, AStr (str_of_exn e))]).
  { intros e Hex He. unfold failed, grade. rewrite Hex, He. cbn [negb].
    repeat split; reflexivity. }
  assert (Hunres : forall df,
             read_csv fs predictions_path = Ok df ->
             fst (find_columns (columns df)) = None \/
             snd (find_columns (columns df)) = None ->
             failed "missing_required_columns"%string /\
             details (grade fs t) =
               Some [("error"%string, AStr "missing_required_columns");
                     ("columns"%string, AList (columns df))]).
  { intros df Hread Hnone. unfold failed, grade.
    rewrite (read_csv_path_exists _ _ _ Hread). cbn [negb].
    unfold grade_try. rewrite Hread. cbn [bind].
    destruct (find_columns (columns df)) as [[ac|] [pc|]]; cbn [fst snd] in Hnone;
      try (repeat split; reflexivity).
    destruct Hnone; discriminate. }
  assert (Hmissing : path_exists fs predictions_path = false ->
             failed "missing_predictions_file"%string /\
             details (grade fs t) =
               Some [("error"%string, AStr "missing_predictions_file")]).
  { intros Hex. unfold failed, grade. rewrite Hex. cbn [negb].
    repeat split; reflexivity. }
  split; [exact Hmissing|]. split; [exact Hunres|]. split; [exact Hraise|].
  split; [|split].
  - intros msg Hfs.
    apply (Hraise (ParserError msg)).
    + unfold path_exists. now rewrite Hfs.
    + unfold grade_try, read_csv. now rewrite Hfs.
  - intros df a p e Hread Hcols Hnba.
    apply (Hraise e).
    + exact (read_csv_path_exists _ _ _ Hread).
    + unfold grade_try. rewrite Hread. cbn [bind]. now rewrite Hcols, Hnba.
  - destruct (path_exists fs predictions_path) eqn:Hex.
    + destruct (grade_try_cases fs)
        as [(e & He) | [(df & Hread & Hnone & _) | (s & Hs)]].
      * right; right; left. exact (proj1 (Hraise e eq_refl He)).
      * right; left. exact (proj1 (Hunres df Hread Hnone)).
      * right; right; right. exists s. split; [exact Hs|].
        now destruct (grade_scored fs t s Hs) as (_ & _ & _ & _ & Herr).
    + left. exact (proj1 (Hmissing eq_refl)).
Qed.

Lemma C7_failures_are_terminal_witness :
  error_tag (grade Sample.fs_no_roles EmptyString)
    = Some (AStr "missing_required_columns") /\
  details (grade Sample.fs_garbled EmptyString)
    = Some [("error"%string, AStr "processing_error");
            ("exception"%string, AStr "No columns to parse from file")].
Proof.
  split.
  - destruct (C7_failures_are_terminal Sample.fs_no_roles EmptyString)
      as (_ & Hcols & _).
    refine (proj1 (proj2 (proj1 (Hcols _ eq_refl _)))).
    left. reflexivity.
  - destruct (C7_failures_are_terminal Sample.fs_garbled EmptyString)
      as (_ & _ & _ & Hparse & _).
    exact (proj2 (Hparse _ eq_refl)).
Defined.

(** C8, the claim as stated fails: a submission with every sub-score at
    its maximum does not get the generic success message; its feedback
    is the accuracy report. *)
Lemma C8_counterexample :
  subscores (grade Sample.fs_perfect EmptyString) =
    [("test_size_correct"%string, f1_0); ("correct_test_split"%string, f1_0);
     ("classification_accuracy"%string, f1_0)] /\
  feedback (grade Sample.fs_perfect EmptyString) =
    Some "Classification accuracy: 1.000 | Classification error: 0.000"%string /\
  feedback (grade Sample.fs_perfect EmptyString) <> Some success_feedback.
Proof.
  repeat split; try reflexivity. vm_compute. discriminate.
Qed.

(** C8, amended: the feedback of a scored submission is the pipe-joined
    list made of the size note when test_size_correct is below 1.0, the
    split note when correct_test_split is 0.0, and then, in every case,
    the accuracy report: the accuracy and the error when the accuracy
    is defined, the note that it could not be calculated otherwise. *)
Theorem C8_feedback :
  forall fs t s,
    reaches_scoring fs s ->
    let a := actual_values s in
    let p := predicted_values s in
    exists ts cs,
      subscore "test_size_correct" (grade fs t) = Some ts /\
      subscore "correct_test_split" (grade fs t) = Some cs /\
      feedback (grade fs t) =
        Some (join " | "
                ((if flt ts f1_0
                  then [size_feedback (len (predictions_df s)) (expected_size s)]
                  else []) ++
                 (if feq cs f0_0 then [split_feedback] else []) ++
                 (if accuracy_defined a p
                  then [fstring ["Classification accuracy: "%string;
                                 format_3f (accuracy a p)];
                        fstring ["Classification error: "%string;
                                 format_3f (fsub f1_0 (accuracy a p))]]
                  else [no_accuracy_feedback]))).
Proof.
  intros fs t s H a p.
  destruct (grade_scored fs t s H) as (_ & Hsubs & _ & Hfb & _).
  apply subscores_lookup in Hsubs. destruct Hsubs as (Hts & Hcs & _).
  exists (ts_of s), (cs_of s). repeat split; assumption.
Qed.

Lemma C8_feedback_witness :
  reaches_scoring Sample.fs_half Sample.s_half /\
  feedback (grade Sample.fs_half EmptyString) =
    Some "Classification accuracy: 0.500 | Classification error: 0.500"%string.
Proof.
  assert (H : reaches_scoring Sample.fs_half Sample.s_half)
    by (repeat split; reflexivity).
  split; [exact H|].
  destruct (C8_feedback Sample.fs_half EmptyString Sample.s_half H)
    as (ts & cs & Hts & Hcs & Hfb).
  vm_compute in Hts, Hcs. injection Hts as <-. injection Hcs as <-. exact Hfb.
Defined.

(** C9: the result of [grade] is a function of the contents of the two
    files alone: two runs that see the same submission and the same
    ground truth return the same result, whatever the transcript and
    whatever else the file system holds. *)
Theorem C9_deterministic :
  forall fs fs' t t',
    fs predictions_path = fs' predictions_path ->
    fs nba_path = fs' nba_path ->
    grade fs t = grade fs' t'.
Proof.
  intros fs fs' t t' Hsol Hnba.
  unfold grade, grade_try, path_exists, read_csv. now rewrite Hsol, Hnba.
Qed.

Lemma C9_deterministic_witness :
  grade Sample.fs_perfect "first run" = grade Sample.fs_perfect_more "second run".
Proof.
  apply C9_deterministic; reflexivity.
Defined.

(** C10: the bonus never changes the score.  Whenever every sub-score
    is at least 0.95, test_size_correct and correct_test_split are both
    1.0, the weighted sum is 0.5 + 0.5*classification_accuracy, and it
    is not below the accuracy; so the final score always equals the
    plain weighted sum.  (Row counts are below 2^53.) *)
Theorem C10_bonus_is_noop :
  forall fs t s,
    reaches_scoring fs s ->
    Z.of_nat (List.length (actual_values s)) < 2 ^ 53 ->
    exists ts cs ca,
      subscores (grade fs t) =
        [("test_size_correct"%string, ts); ("correct_test_split"%string, cs);
         ("classification_accuracy"%string, ca)] /\
      (ts = f1_0 \/ ts = f0_5) /\
      (cs = f1_0 \/ cs = f0_0) /\
      score (grade fs t) = weighted ts cs ca /\
      (all_components_perfect (subscores (grade fs t)) = true ->
       ts = f1_0 /\ cs = f1_0 /\
       weighted ts cs ca = fadd f0_5 (fmul f0_5 ca) /\
       flt (weighted ts cs ca) ca = false).
Proof.
  intros fs t s H Hn.
  destruct (grade_scored fs t s H) as (Hscore & Hsubs & _).
  exists (ts_of s), (cs_of s), (ca_of s).
  split; [exact Hsubs|].
  split; [apply size_score_cases|]. split; [apply actual_match_score_cases|].
  assert (Hperfect :
            all_components_perfect (subscores (grade fs t)) = true ->
            ts_of s = f1_0 /\ cs_of s = f1_0 /\
            weighted (ts_of s) (cs_of s) (ca_of s) = fadd f0_5 (fmul f0_5 (ca_of s)) /\
            flt (weighted (ts_of s) (cs_of s) (ca_of s)) (ca_of s) = false).
  { rewrite Hsubs, all_components_perfect_three, !andb_true_iff.
    intros ((Hts & Hcs) & Hca).
    apply size_score_perfect in Hts. apply actual_match_score_perfect in Hcs.
    unfold ts_of, cs_of. rewrite Hts, Hcs.
    split; [reflexivity|]. split; [reflexivity|]. split; [reflexivity|].
    unfold ca_of in *.
    destruct (accuracy_defined (actual_values s) (predicted_values s)) eqn:Hdef;
      [|discriminate].
    unfold accuracy_defined in Hdef. apply andb_true_iff in Hdef.
    destruct Hdef as (_ & Hpos). apply Z.ltb_lt in Hpos.
    unfold accuracy in *. apply bonus_noop_core; auto.
    apply count_equal_bounds. }
  split; [|exact Hperfect].
  rewrite Hscore. unfold apply_bonus. rewrite <- Hsubs.
  destruct (all_components_perfect (subscores (grade fs t))) eqn:Hall; [|reflexivity].
  destruct (Hperfect eq_refl) as (_ & _ & _ & Hlt).
  unfold fmax. now rewrite Hlt.
Qed.

Lemma C10_bonus_is_noop_witness :
  reaches_scoring Sample.fs_perfect Sample.s_perfect /\
  score (grade Sample.fs_perfect EmptyString) = weighted f1_0 f1_0 f1_0.
Proof.
  assert (H : reaches_scoring Sample.fs_perfect Sample.s_perfect)
    by (repeat split; reflexivity).
  split; [exact H|].
  destruct (C10_bonus_is_noop Sample.fs_perfect EmptyString Sample.s_perfect H
              ltac:(reflexivity))
    as (ts & cs & ca & Hsubs & _ & _ & Hscore & _).
  vm_compute in Hsubs. injection Hsubs as <- <- <-. exact Hscore.
Defined.

(* ================================================================== *)
(** * Further properties of the grader                                 *)
(* ================================================================== *)

Lemma lookup_column_In name cols :
  In name (map fst cols) -> exists v, lookup_column name cols = Ok v.
Proof.
  induction cols as [|[c v] cols IH]; cbn; [tauto|].
  intros [<- | Hin].
  - rewrite String.eqb_refl. eauto.
  - destruct (String.eqb name c); eauto.
Qed.

Lemma lookup_column_not_In name cols :
  ~ In name (map fst cols) -> lookup_column name cols = Raise (KeyError name).
Proof.
  induction cols as [|[c v] cols IH]; cbn; auto.
  intros Hnot. destruct (String.eqb_spec name c) as [->|_]; [tauto|].
  apply IH. tauto.
Qed.

Lemma lookup_column_mem name cols v :
  lookup_column name cols = Ok v -> In (name, v) cols.
Proof.
  induction cols as [|[c w] cols IH]; cbn; [discriminate|].
  destruct (String.eqb_spec name c) as [->|_].
  - intros [= ->]. now left.
  - intros H. right. now apply IH.
Qed.

Lemma getitem_length df name v :
  well_formed df -> getitem df name = Ok v ->
  List.length v = List.length (index df).
Proof.
  intros Hwf Hget. apply lookup_column_mem in Hget.
  unfold well_formed in Hwf. rewrite Forall_forall in Hwf.
  exact (Hwf _ Hget).
Qed.

Lemma read_csv_frame fs path df :
  read_csv fs path = Ok df ->
  exists nrows cols,
    fs path = Some (Table nrows cols) /\
    df = {| index := RangeIndex nrows; data := cols |}.
Proof.
  unfold read_csv. destruct (fs path) as [[msg|nrows cols]|]; try discriminate.
  intros [= <-]. eauto.
Qed.

Lemma length_RangeIndex n : List.length (RangeIndex n) = n.
Proof. unfold RangeIndex. now rewrite length_map, length_seq. Qed.

Lemma find_columns_resolved cols a p :
  find_columns cols = (Some a, Some p) ->
  In a cols /\ In p cols /\
  is_actual a = true /\ is_predicted p = true /\ is_actual p = false.
Proof.
  intros H. rewrite find_columns_last in H.
  injection H as Ha Hp.
  apply find_some in Ha. apply find_some in Hp.
  destruct Ha as (Hina & Hact), Hp as (Hinp & Hpred).
  apply in_rev in Hina. apply in_rev in Hinp.
  apply andb_true_iff in Hpred. destruct Hpred as (Hnact & Hpred).
  apply negb_true_iff in Hnact.
  repeat split; auto.
Qed.

(** Lines 46-61 and 85-86: once both roles are resolved, the two names
    are different headers of the submission, the first contains
    "actual", the second contains "predicted" and not "actual", and
    reading the two columns cannot raise. *)
Theorem resolved_columns_are_readable :
  forall df a p,
    find_columns (columns df) = (Some a, Some p) ->
    In a (columns df) /\ In p (columns df) /\
    is_actual a = true /\ is_predicted p = true /\ is_actual p = false /\
    a <> p /\
    exists va vp, getitem df a = Ok va /\ getitem df p = Ok vp.
Proof.
  intros df a p H.
  destruct (find_columns_resolved _ _ _ H) as (Hina & Hinp & Hact & Hpred & Hnact).
  repeat split; auto.
  - intros ->. congruence.
  - destruct (lookup_column_In a (data df) Hina) as (va & Hva).
    destruct (lookup_column_In p (data df) Hinp) as (vp & Hvp).
    exists va, vp. split; assumption.
Qed.

Lemma resolved_columns_are_readable_witness :
  "player's actual position"%string <> "predicted position"%string.
Proof.
  exact (proj1 (proj2 (proj2 (proj2 (proj2 (proj2
    (resolved_columns_are_readable
       (predictions_df Sample.s_half)
       "player's actual position" "predicted position" eq_refl))))))).
Defined.

(** Lines 85-117: the two columns come from one frame, so their lengths
    never differ; the accuracy is undefined, and the note about
    mismatched array lengths is given, exactly when the submission has
    no data row. *)
Theorem accuracy_undefined_only_when_empty :
  forall fs t s,
    reaches_scoring fs s ->
    well_formed (predictions_df s) ->
    let a := actual_values s in
    let p := predicted_values s in
    let rows := len (predictions_df s) in
    List.length a = List.length p /\
    (0 < rows ->
     subscore "classification_accuracy" (grade fs t) = Some (accuracy a p) /\
     feedback (grade fs t) =
       Some (join " | "
               ((if flt (ts_of s) f1_0
                 then [size_feedback rows (expected_size s)] else []) ++
                (if feq (cs_of s) f0_0 then [split_feedback] else []) ++
                accuracy_feedback (accuracy a p) (fsub f1_0 (accuracy a p))))) /\
    (rows = 0 ->
     subscore "classification_accuracy" (grade fs t) = Some f0_0 /\
     feedback (grade fs t) =
       Some (join " | "
               ((if flt (ts_of s) f1_0
                 then [size_feedback rows (expected_size s)] else []) ++
                (if feq (cs_of s) f0_0 then [split_feedback] else []) ++
                [no_accuracy_feedback]))).
Proof.
  intros fs t s H Hwf a p rows.
  destruct (grade_scored fs t s H) as (_ & Hsubs & _ & Hfb & _).
  apply subscores_lookup in Hsubs. destruct Hsubs as (_ & _ & Hca).
  destruct H as (_ & _ & _ & _ & _ & _ & Ha & Hp).
  pose proof (getitem_length _ _ _ Hwf Ha) as Hla.
  pose proof (getitem_length _ _ _ Hwf Hp) as Hlp.
  fold a in Hla, Hfb. fold p in Hlp, Hfb.
  assert (Hdef : accuracy_defined a p = (0 <? rows)).
  { unfold accuracy_defined, rows, len. rewrite Hla, Hlp, Nat.eqb_refl. reflexivity. }
  unfold ca_of in Hca. fold a p in Hca. rewrite Hdef in Hca, Hfb.
  split; [congruence|]. split.
  - intros Hpos. destruct (Z.ltb_spec 0 rows); [|lia]. split; assumption.
  - intros Hz. destruct (Z.ltb_spec 0 rows); [lia|]. split; assumption.
Qed.

Lemma accuracy_undefined_only_when_empty_witness :
  subscore "classification_accuracy" (grade Sample.fs_half EmptyString)
  = Some (accuracy [Str "PF"; Str "C"] [Str "PF"; Str "PG"]).
Proof.
  assert (H : reaches_scoring Sample.fs_half Sample.s_half)
    by (repeat split; reflexivity).
  assert (Hwf : well_formed (predictions_df Sample.s_half))
    by (repeat constructor).
  exact (proj1 (proj1 (proj2 (accuracy_undefined_only_when_empty
           Sample.fs_half EmptyString Sample.s_half H Hwf)) eq_refl)).
Defined.

(** Lines 64 and 144-149: a submission that parses and names both
    roles, graded where the ground-truth file is absent, gets the
    processing error that carries the message of the missing file. *)
Theorem missing_ground_truth_is_processing_error :
  forall fs t df a p,
    read_csv fs predictions_path = Ok df ->
    find_columns (columns df) = (Some a, Some p) ->
    fs nba_path = None ->
    score (grade fs t) = f0_0 /\
    subscores (grade fs t) = [] /\
    details (grade fs t) =
      Some [("error"%string, AStr "processing_error");
            ("exception"%string,
             AStr "[Errno 2] No such file or directory: 'nba_player_stats.csv'")].
Proof.
  intros fs t df a p Hread Hcols Hnba.
  unfold grade. rewrite (read_csv_path_exists _ _ _ Hread). cbn [negb].
  assert (Hr : read_csv fs nba_path = Raise (FileNotFoundError nba_path))
    by (unfold read_csv; now rewrite Hnba).
  unfold grade_try. rewrite Hread. cbn [bind]. rewrite Hcols, Hr. cbn [bind].
  repeat split; reflexivity.
Qed.

Lemma missing_ground_truth_is_processing_error_witness :
  score (grade (fun path => if String.eqb path "sol.csv"
                            then Some (Table 2 Sample.sol_half_cols) else None)
               EmptyString) = f0_0.
Proof.
  refine (proj1 (missing_ground_truth_is_processing_error _ EmptyString
                   {| index := RangeIndex 2; data := Sample.sol_half_cols |}
                   "player's actual position" "predicted position" _ _ _));
    reflexivity.
Defined.

Lemma expected_actuals_frame nrows cols b :
  0 <= b ->
  expected_actuals b {| index := RangeIndex nrows; data := cols |}
  = (pos <- lookup_column "Pos" cols ;;
     Ok (skipn (searchsorted_left (skipn (Z.to_nat b) (RangeIndex nrows)) 1)
           (skipn (Z.to_nat b) pos))).
Proof.
  intros Hb. unfold expected_actuals, loc_from, iloc_from, getitem, slice_start.
  cbn [index data]. destruct (Z.ltb_spec b 0) as [|_]; [lia|].
  rewrite lookup_column_map. now destruct (lookup_column "Pos" cols).
Qed.

(** Lines 64-82 and 144-149: a ground-truth table without a Pos column
    (fewer than 2^50 rows) gives the processing error whose message is
    the quoted column name. *)
Theorem ground_truth_without_pos_is_processing_error :
  forall fs t df a p nrows cols,
    read_csv fs predictions_path = Ok df ->
    find_columns (columns df) = (Some a, Some p) ->
    fs nba_path = Some (Table nrows cols) ->
    Z.of_nat nrows < 2 ^ 50 ->
    ~ In "Pos"%string (map fst cols) ->
    score (grade fs t) = f0_0 /\
    subscores (grade fs t) = [] /\
    details (grade fs t) =
      Some [("error"%string, AStr "processing_error");
            ("exception"%string, AStr "'Pos'")].
Proof.
  intros fs t df a p nrows cols Hread Hcols Hnba Hn Hpos.
  unfold grade. rewrite (read_csv_path_exists _ _ _ Hread). cbn [negb].
  assert (Hr : read_csv fs nba_path = Ok {| index := RangeIndex nrows; data := cols |})
    by (unfold read_csv; now rewrite Hnba).
  unfold grade_try. rewrite Hread. cbn [bind]. rewrite Hcols, Hr. cbn [bind].
  rewrite len_read_frame.
  rewrite expected_test_size_exact, test_start_idx_exact by lia. cbn [bind].
  rewrite expected_actuals_frame by (apply Z.div_pos; lia).
  rewrite (lookup_column_not_In _ _ Hpos). cbn [bind].
  repeat split; reflexivity.
Qed.

Lemma ground_truth_without_pos_is_processing_error_witness :
  details (grade (Sample.two_files (Table 2 Sample.sol_half_cols)
                    (Table 1 [("Player"%string, [Str "p0"])]))
                 EmptyString)
  = Some [("error"%string, AStr "processing_error");
          ("exception"%string, AStr "'Pos'")].
Proof.
  refine (proj2 (proj2 (ground_truth_without_pos_is_processing_error _ EmptyString
                   {| index := RangeIndex 2; data := Sample.sol_half_cols |}
                   "player's actual position" "predicted position"
                   1%nat [("Player"%string, [Str "p0"])] _ _ _ _ _))).
  - reflexivity.
  - reflexivity.
  - reflexivity.
  - reflexivity.
  - cbn. intros [H|[]]. discriminate.
Defined.

Lemma searchsorted_left_one k n :
  (searchsorted_left (skipn k (RangeIndex n)) 1 <= 1)%nat.
Proof.
  destruct k as [|k].
  - cbn [skipn]. rewrite searchsorted_left_zero. lia.
  - rewrite searchsorted_left_from; lia.
Qed.

(** The score of a scored run is the plain weighted sum. *)
Lemma score_is_weighted fs t s :
  reaches_scoring fs s ->
  Z.of_nat (List.length (actual_values s)) < 2 ^ 53 ->
  score (grade fs t) = weighted (ts_of s) (cs_of s) (ca_of s).
Proof.
  intros H Hn.
  destruct (grade_scored fs t s H) as (Hscore & _).
  rewrite Hscore. unfold apply_bonus.
  rewrite all_components_perfect_three.
  destruct (fge (ts_of s) f0_95 && fge (cs_of s) f0_95 && fge (ca_of s) f0_95)%bool
    eqn:Hall; [|reflexivity].
  rewrite !andb_true_iff in Hall. destruct Hall as ((Hts & Hcs) & Hca).
  apply size_score_perfect in Hts. apply actual_match_score_perfect in Hcs.
  unfold ts_of, cs_of in *. rewrite Hts, Hcs.
  unfold ca_of in *.
  destruct (accuracy_defined (actual_values s) (predicted_values s)) eqn:Hdef;
    [|discriminate].
  unfold accuracy_defined in Hdef. apply andb_true_iff in Hdef.
  destruct Hdef as (_ & Hpos). apply Z.ltb_lt in Hpos.
  unfold fmax. unfold accuracy in *.
  rewrite bonus_noop_core; auto. apply count_equal_bounds.
Qed.

(** Lines 68-94: a submission with the exact split also has the right
    size.  On well-formed tables (the ground truth below 2^50 rows),
    correct_test_split = 1.0 forces test_size_correct = 1.0, because the
    held-out slice is at most one row longer than a fifth of the table;
    the score is then 0.5 + 0.5 * accuracy. *)
Theorem exact_split_has_right_size :
  forall fs t s,
    reaches_scoring fs s ->
    well_formed (predictions_df s) ->
    well_formed (nba_data s) ->
    len (nba_data s) < 2 ^ 50 ->
    subscore "correct_test_split" (grade fs t) = Some f1_0 ->
    subscores (grade fs t) =
      [("test_size_correct"%string, f1_0); ("correct_test_split"%string, f1_0);
       ("classification_accuracy"%string, ca_of s)] /\
    score (grade fs t) = fadd f0_5 (fmul f0_5 (ca_of s)).
Proof.
  intros fs t s H Hwfs Hwfn Hn Hone.
  destruct (grade_scored fs t s H) as (_ & Hsubs & _).
  assert (Hcs : cs_of s = f1_0).
  { destruct (subscores_lookup _ _ _ _ Hsubs) as (_ & Hcs & _). congruence. }
  assert (Heq : List.length (actual_values s) = List.length (expected_labels s)).
  { unfold cs_of in Hcs. apply actual_match_score_one in Hcs. apply Hcs. }
  pose proof H as (_ & _ & Hnba & Hes & Hst & Hexp & Ha & _).
  destruct (read_csv_frame _ _ _ Hnba) as (nrows & cols & _ & Hframe).
  rewrite Hframe in *. rewrite len_read_frame in *.
  rewrite expected_test_size_exact in Hes by lia.
  rewrite test_start_idx_exact in Hst by lia.
  assert (Hes' : expected_size s = Z.of_nat nrows / 5) by congruence.
  assert (Hst' : start_idx s = 4 * Z.of_nat nrows / 5) by congruence.
  clear Hes Hst.
  assert (Hb0 : 0 <= start_idx s) by (rewrite Hst'; apply Z.div_pos; lia).
  rewrite expected_actuals_frame in Hexp by exact Hb0.
  destruct (lookup_column "Pos" cols) as [pos|e] eqn:Hpos; [|discriminate].
  cbn [bind] in Hexp. injection Hexp as Hexp.
  assert (Hlpos : List.length pos = nrows).
  { apply lookup_column_mem in Hpos. unfold well_formed in Hwfn.
    rewrite Forall_forall in Hwfn. specialize (Hwfn _ Hpos).
    cbn [snd index] in Hwfn. now rewrite length_RangeIndex in Hwfn. }
  pose proof (getitem_length _ _ _ Hwfs Ha) as Hrows.
  pose proof (searchsorted_left_one (Z.to_nat (start_idx s)) nrows) as Hss.
  assert (Hlen : Z.abs (len (predictions_df s) - expected_size s) <= 2).
  { unfold len. rewrite <- Hrows, Heq, <- Hexp, !length_skipn, Hlpos, Hes'.
    rewrite Hst' in Hss |- *.
    pose proof (Z.div_mod (Z.of_nat nrows) 5 ltac:(lia)).
    pose proof (Z.mod_pos_bound (Z.of_nat nrows) 5 ltac:(lia)).
    pose proof (Z.div_mod (4 * Z.of_nat nrows) 5 ltac:(lia)).
    pose proof (Z.mod_pos_bound (4 * Z.of_nat nrows) 5 ltac:(lia)).
    lia. }
  assert (Hts : ts_of s = f1_0).
  { unfold ts_of, size_score, size_tolerance.
    destruct (Z.leb_spec (Z.abs (len (predictions_df s) - expected_size s)) 2);
      [reflexivity|lia]. }
  split.
  - now rewrite Hsubs, Hts, Hcs.
  - rewrite (score_is_weighted fs t s H), Hts, Hcs; [reflexivity|].
    rewrite Heq, <- Hexp, !length_skipn, Hlpos. lia.
Qed.

Lemma exact_split_has_right_size_witness :
  score (grade Sample.fs_half EmptyString)
  = fadd f0_5 (fmul f0_5 (ca_of Sample.s_half)).
Proof.
  refine (proj2 (exact_split_has_right_size Sample.fs_half EmptyString Sample.s_half
                   _ _ _ _ _)).
  - repeat split; reflexivity.
  - repeat constructor.
  - repeat constructor.
  - reflexivity.
  - reflexivity.
Defined.

Lemma grade_try_unresolved fs df :
  read_csv fs predictions_path = Ok df ->
  fst (find_columns (columns df)) = None \/ snd (find_columns (columns df)) = None ->
  exists r, grade_try fs = Ok r /\
            feedback r =
              Some (fstring
                ["sol.csv must contain columns with 'actual' and 'predicted' in their names. Found columns: "%string;
                 repr_list (columns df)]).
Proof.
  intros Hread Hun. unfold grade_try. rewrite Hread. cbn [bind].
  destruct (find_columns (columns df)) as [[a|] [p|]]; cbn [fst snd] in Hun;
    try (eexists; split; reflexivity).
  destruct Hun; discriminate.
Qed.

(** Lines 35-39, 57-61, 112-117, 140 and 145-149: the generic success
    message is never returned.  The list of notes always holds the
    accuracy report, so the branch that would produce the message is
    never taken, and the three failure results carry other texts. *)
Theorem feedback_is_never_the_success_message :
  forall fs t, feedback (grade fs t) <> Some success_feedback.
Proof.
  intros fs t.
  destruct (path_exists fs predictions_path) eqn:Hex.
  - destruct (grade_try_cases fs)
      as [(e & He) | [(df & Hread & Hunres & _) | (s & Hs)]].
    + unfold grade. rewrite Hex, He. cbn [negb feedback]. discriminate.
    + destruct (grade_try_unresolved fs df Hread Hunres) as (r & Hr & Hfb).
      unfold grade. rewrite Hex, Hr. cbn [negb]. rewrite Hfb. discriminate.
    + destruct (grade_scored fs t s Hs) as (_ & _ & _ & Hfb & _).
      rewrite Hfb.
      destruct (flt (ts_of s) f1_0), (feq (cs_of s) f0_0),
        (accuracy_defined (actual_values s) (predicted_values s));
        cbn [app join String.concat]; discriminate.
  - unfold grade. rewrite Hex. cbn [negb feedback]. discriminate.
Qed.

(** Lines 43-61 and 85-86: the grade depends on the submission only
    through its header names, its number of rows and the columns whose
    names contain "actual" or "predicted".  Two submissions that agree
    on these get the same result; the player column, for one, is never
    looked at. *)
Theorem only_the_role_columns_matter :
  forall fs fs' t nrows cols cols',
    fs predictions_path = Some (Table nrows cols) ->
    fs' predictions_path = Some (Table nrows cols') ->
    fs nba_path = fs' nba_path ->
    map fst cols = map fst cols' ->
    (forall c, (is_actual c || is_predicted c)%bool = true ->
               lookup_column c cols = lookup_column c cols') ->
    grade fs t = grade fs' t.
Proof.
  intros fs fs' t nrows cols cols' Hsol Hsol' Hnba Hnames Hsame.
  unfold grade, path_exists. rewrite Hsol, Hsol'. cbn [negb].
  assert (Htry : grade_try fs = grade_try fs'); [|now rewrite Htry].
  unfold grade_try, read_csv. rewrite Hsol, Hsol', Hnba. cbn [bind].
  unfold columns, len, getitem. cbn [index data]. rewrite <- Hnames.
  destruct (find_columns (map fst cols)) as [[a|] [p|]] eqn:Hfc; try reflexivity.
  destruct (find_columns_resolved _ a p Hfc) as (_ & _ & Hact & Hpred & _).
  rewrite <- (Hsame a) by (now rewrite Hact).
  rewrite <- (Hsame p) by (now rewrite Hpred, orb_true_r).
  reflexivity.
Qed.

Lemma only_the_role_columns_matter_witness :
  grade Sample.fs_half EmptyString
  = grade (Sample.two_files
             (Table 2 [("Player name"%string, [Str "someone"; Str "else"]);
                       ("player's actual position"%string, [Str "PF"; Str "C"]);
                       ("predicted position"%string, [Str "PF"; Str "PG"])])
             Sample.nba10)
          EmptyString.
Proof.
  apply (only_the_role_columns_matter _ _ EmptyString 2 Sample.sol_half_cols
           [("Player name"%string, [Str "someone"; Str "else"]);
            ("player's actual position"%string, [Str "PF"; Str "C"]);
            ("predicted position"%string, [Str "PF"; Str "PG"])]);
    try reflexivity.
  intros c Hc. cbn [lookup_column Sample.sol_half_cols].
  destruct (String.eqb_spec c "Player name") as [->|_]; [discriminate Hc|reflexivity].
Defined.

(* ================================================================== *)
(** * Properties of the producer                                       *)
(* ================================================================== *)

Import Tools.

Lemma select_map_filter {A} (f : A -> bool) l : select (map f l) l = filter f l.
Proof.
  induction l as [|x l IH]; auto. cbn. destruct (f x); now rewrite IH.
Qed.

Lemma select_length_le {A} mask (l : list A) :
  (List.length (select mask l) <= List.length l)%nat.
Proof.
  revert l. induction mask as [|b mask IH]; intros [|x l]; cbn; try lia.
  specialize (IH l). destruct b; cbn; lia.
Qed.

Lemma select_length_eq {A B} mask (a : list A) (b : list B) :
  List.length a = List.length b ->
  List.length (select mask a) = List.length (select mask b).
Proof.
  revert a b. induction mask as [|m mask IH]; intros [|x a] [|y b] H;
    try discriminate; auto.
  cbn. injection H as H. destruct m; cbn; auto.
Qed.

Lemma select_combine {A B} mask (a : list A) (b : list B) :
  combine (select mask a) (select mask b) = select mask (combine a b).
Proof.
  revert a b. induction mask as [|m mask IH]; intros [|x a] [|y b]; cbn; auto.
  - now destruct m; rewrite ?combine_nil.
  - destruct m; cbn; now rewrite IH.
Qed.

Lemma select_In {A} mask (l : list A) x : In x (select mask l) -> In x l.
Proof.
  revert l. induction mask as [|b mask IH]; intros [|y l]; cbn; try tauto.
  destruct b; cbn; intuition.
Qed.

Lemma select_all {A} (mask : list bool) (l : list A) :
  List.length mask = List.length l -> Forall (fun b => b = true) mask ->
  select mask l = l.
Proof.
  revert l. induction mask as [|b mask IH]; intros [|x l] Hlen Hall;
    try discriminate; auto.
  inversion Hall as [|? ? Hb Hrest]; subst. cbn. f_equal. apply IH; auto.
Qed.

Lemma existsb_eqb_In x l : existsb (String.eqb x) l = true <-> In x l.
Proof.
  rewrite existsb_exists. split.
  - intros (y & Hin & Heq). apply String.eqb_eq in Heq. now subst.
  - intros Hin. exists x. split; auto. apply String.eqb_refl.
Qed.

Lemma float_same_spec x y : float_same x y = true <-> x = y.
Proof.
  destruct x as [s|s| |s m e], y as [s'|s'| |s' m' e']; cbn;
    try (split; [discriminate|congruence]); try tauto.
  - rewrite Bool.eqb_true_iff. split; congruence.
  - rewrite Bool.eqb_true_iff. split; congruence.
  - rewrite !andb_true_iff, Bool.eqb_true_iff, Pos.eqb_eq, Z.eqb_eq.
    split; [intros ((-> & ->) & ->); reflexivity|intros [= -> -> ->]; auto].
Qed.

Lemma cell_same_spec a b : cell_same a b = true <-> a = b.
Proof.
  destruct a as [s|z|x|c], b as [s'|z'|x'|c']; cbn;
    try (split; [discriminate|congruence]).
  - rewrite String.eqb_eq. split; congruence.
  - rewrite Z.eqb_eq. split; congruence.
  - rewrite float_same_spec. split; congruence.
  - rewrite Bool.eqb_true_iff. split; congruence.
Qed.

Lemma same_key_In x l : existsb (same_key x) l = true <-> In (key x) (map key l).
Proof.
  rewrite existsb_exists, in_map_iff. unfold same_key.
  split; intros (y & H1 & H2); exists y.
  - apply cell_same_spec in H2. auto.
  - split; auto. apply cell_same_spec. auto.
Qed.

(** The key of text is the text, and nothing else has that key. *)
Lemma key_text x t : key x = Str t <-> x = Str t.
Proof.
  destruct x as [s|z|f|c]; cbn; try (split; discriminate); try tauto.
  destruct (exact_int f); split; discriminate.
Qed.

Lemma equal_text_key x y t : key x = key y -> equal x (Str t) = equal y (Str t).
Proof.
  intros Hk.
  destruct (equal x (Str t)) eqn:Hx, (equal y (Str t)) eqn:Hy; auto.
  - apply equal_text in Hx. subst x. cbn [key] in Hk. symmetry in Hk.
    apply (proj1 (key_text y t)) in Hk.
    subst y. rewrite equal_refl in Hy. discriminate.
  - apply equal_text in Hy. subst y. cbn [key] in Hk.
    apply (proj1 (key_text x t)) in Hk.
    subst x. rewrite equal_refl in Hx. discriminate.
Qed.

Lemma keep_last_length l : List.length (keep_last l) = List.length l.
Proof. induction l; cbn; auto. Qed.

Lemma keep_last_In l k :
  In k (map key (select (keep_last l) l)) <-> In k (map key l).
Proof.
  induction l as [|y l IH]; cbn; [tauto|].
  destruct (existsb (same_key y) l) eqn:Hex; cbn.
  - apply same_key_In in Hex. rewrite IH. split; [tauto|].
    intros [<- | H]; auto.
  - rewrite IH. tauto.
Qed.

Lemma keep_last_NoDup l : NoDup (map key (select (keep_last l) l)).
Proof.
  induction l as [|y l IH]; cbn; [constructor|].
  destruct (existsb (same_key y) l) eqn:Hex; cbn; auto.
  constructor; auto.
  rewrite keep_last_In. intros Hin. apply same_key_In in Hin. congruence.
Qed.

Lemma keep_last_all l :
  NoDup (map key l) -> Forall (fun b => b = true) (keep_last l).
Proof.
  induction l as [|y l IH]; cbn; intros Hnd; constructor;
    inversion Hnd as [|? ? Hnot Hnd']; subst; auto.
  destruct (existsb (same_key y) l) eqn:Hex; auto.
  apply same_key_In in Hex. contradiction.
Qed.

Lemma lookup_column_filter (P : string * list cell -> bool) name cols :
  (forall v, P (name, v) = true) ->
  lookup_column name (filter P cols) = lookup_column name cols.
Proof.
  intros HP. induction cols as [|[c v] cols IH]; auto.
  cbn [filter lookup_column].
  destruct (String.eqb_spec name c) as [->|Hne].
  - rewrite HP. cbn. now rewrite String.eqb_refl.
  - destruct (P (c, v)); auto. cbn.
    destruct (String.eqb_spec name c); [contradiction|auto].
Qed.

Lemma getitem_filter_rows mask df name :
  getitem (filter_rows mask df) name
  = (v <- getitem df name ;; Ok (select mask v)).
Proof. unfold getitem, filter_rows. cbn [data]. apply lookup_column_map. Qed.

Lemma well_formed_filter_rows mask df :
  well_formed df -> well_formed (filter_rows mask df).
Proof.
  unfold well_formed, filter_rows. cbn [index data]. intros H.
  rewrite Forall_map. revert H. apply Forall_impl. intros [c v] Hlen.
  cbn [fst snd] in *. now apply select_length_eq.
Qed.

Lemma well_formed_filter_columns (P : string * list cell -> bool) df :
  well_formed df -> well_formed {| index := index df; data := filter P (data df) |}.
Proof.
  unfold well_formed. cbn [index data]. intros H.
  rewrite Forall_forall in *. intros cv Hin. apply filter_In in Hin. now apply H.
Qed.

(** The cleaning, spelled out on the two columns it is about. *)
Lemma clean_spec df names :
  getitem df "Player" = Ok names ->
  let kept := filter (fun v => negb (equal v (Str "League Average"))) names in
  let mask1 := map (fun v => negb (equal v (Str "League Average"))) names in
  exists df',
    clean df = Ok df' /\
    getitem df' "Player" = Ok (select (keep_last kept) kept) /\
    getitem df' "Pos"
      = (pos <- getitem df "Pos" ;; Ok (select (keep_last kept) (select mask1 pos))) /\
    index df' = select (keep_last kept) (select mask1 (index df)) /\
    columns df' =
      filter (fun c => negb (existsb (String.eqb c) ["Rk"; "Team"; "Awards"]%string))
             (columns df) /\
    (well_formed df -> well_formed df').
Proof.
  intros Hnames kept mask1.
  assert (Hp2 : getitem (drop_columns ["Rk"; "Team"; "Awards"]%string (filter_rows mask1 df))
                        "Player" = Ok kept).
  { unfold getitem, drop_columns. cbn [data].
    rewrite lookup_column_filter by reflexivity.
    fold (getitem (filter_rows mask1 df) "Player").
    rewrite getitem_filter_rows, Hnames. cbn [bind].
    unfold mask1, kept. now rewrite select_map_filter. }
  eexists. split.
  { unfold clean. rewrite Hnames. cbn [bind]. fold mask1. rewrite Hp2.
    cbn [bind]. reflexivity. }
  split; [|split; [|split; [|split]]].
  - rewrite getitem_filter_rows, Hp2. reflexivity.
  - rewrite getitem_filter_rows. unfold getitem at 1, drop_columns. cbn [data].
    rewrite lookup_column_filter by reflexivity.
    fold (getitem (filter_rows mask1 df) "Pos").
    rewrite getitem_filter_rows. now destruct (getitem df "Pos").
  - reflexivity.
  - unfold columns, filter_rows, drop_columns. cbn [data].
    generalize (data df). intros cols.
    induction cols as [|[c v] cols IH]; auto.
    cbn [map filter fst]. destruct (negb _); cbn [map fst]; now rewrite IH.
  - intros Hwf. apply well_formed_filter_rows.
    apply (well_formed_filter_columns _ (filter_rows mask1 df)).
    now apply well_formed_filter_rows.
Qed.

Lemma not_league_average x :
  negb (equal x (Str "League Average")) = true <-> x <> Str "League Average".
Proof.
  rewrite negb_true_iff, <- not_true_iff_false, equal_text. tauto.
Qed.

Lemma keep_last_split {B} (l : list (cell * B)) x q :
  In (x, q) (select (keep_last (map fst l)) l) ->
  exists before after,
    l = before ++ (x, q) :: after /\ ~ In (key x) (map key (map fst after)).
Proof.
  induction l as [|[y r] l IH]; cbn; [tauto|].
  destruct (existsb (same_key y) (map fst l)) eqn:Hex; cbn.
  - intros Hin. destruct (IH Hin) as (b & a & -> & Hnot).
    exists ((y, r) :: b), a. split; auto.
  - intros [[= -> ->] | Hin].
    + exists [], l. split; auto.
      intros Hin. apply same_key_In in Hin. congruence.
    + destruct (IH Hin) as (b & a & -> & Hnot).
      exists ((y, r) :: b), a. split; auto.
Qed.

Lemma filter_split {A} (f : A -> bool) l b x a :
  filter f l = b ++ x :: a ->
  exists b' a', l = b' ++ x :: a' /\ filter f a' = a.
Proof.
  revert b. induction l as [|y l IH]; intros b H; cbn in H.
  - destruct b; discriminate.
  - destruct (f y) eqn:Hf.
    + destruct b as [|z b]; cbn in H.
      * injection H as -> <-. exists [], l. split; auto.
      * injection H as -> H. destruct (IH _ H) as (b' & a' & -> & Ha).
        exists (z :: b'), a'. split; auto.
    + destruct (IH _ H) as (b' & a' & -> & Ha).
      exists (y :: b'), a'. split; auto.
Qed.

Lemma map_fst_combine {A B} (a : list A) (b : list B) :
  List.length a = List.length b -> map fst (combine a b) = a.
Proof.
  revert b. induction a as [|x a IH]; intros [|y b] H; try discriminate; auto.
  cbn. f_equal. apply IH. now injection H.
Qed.

Lemma filter_combine_fst {A B} (f : A -> bool) (a : list A) (b : list B) :
  combine (filter f a) (select (map f a) b)
  = filter (fun xy => f (fst xy)) (combine a b).
Proof.
  revert b. induction a as [|x a IH]; intros [|y b]; cbn; auto.
  - now rewrite combine_nil.
  - destruct (f x); cbn; now rewrite IH.
Qed.

(** Lines 62-64: after the cleaning the table has one row per player
    and no league-average row; the players kept are exactly the other
    players of the input; each keeps the position of its last row in
    the input; and the columns still have one value per row.  Players
    are the same when their keys are: for text the key is the text,
    and a missing name is the same player as another missing name. *)
Theorem cleaning_keeps_last_row_of_each_player :
  forall df names pos,
    well_formed df ->
    getitem df "Player" = Ok names ->
    getitem df "Pos" = Ok pos ->
    exists df' names' pos',
      clean df = Ok df' /\
      getitem df' "Player" = Ok names' /\
      getitem df' "Pos" = Ok pos' /\
      well_formed df' /\
      NoDup (map key names') /\
      (forall x, In x names' -> In x names /\ x <> Str "League Average") /\
      (forall x, In x names -> x <> Str "League Average" ->
                 exists x', In x' names' /\ key x' = key x) /\
      List.length pos' = List.length names' /\
      (forall x q,
          In (x, q) (combine names' pos') ->
          exists before after,
            combine names pos = before ++ (x, q) :: after /\
            ~ In (key x) (map key (map fst after))).
Proof.
  intros df names pos Hwf Hnames Hpos.
  destruct (clean_spec df names Hnames) as (df' & Hclean & Hn' & Hp' & _ & _ & Hwf').
  rewrite Hpos in Hp'. cbn [bind] in Hp'.
  set (f := fun v => negb (equal v (Str "League Average"))) in *.
  set (kept := filter f names) in *.
  set (pos1 := select (map f names) pos) in *.
  assert (Hlen : List.length names = List.length pos).
  { rewrite (getitem_length _ _ _ Hwf Hnames). symmetry.
    apply (getitem_length _ _ _ Hwf Hpos). }
  assert (Hlen1 : List.length kept = List.length pos1).
  { unfold kept, pos1. rewrite <- select_map_filter. now apply select_length_eq. }
  exists df', (select (keep_last kept) kept), (select (keep_last kept) pos1).
  split; [exact Hclean|]. split; [exact Hn'|]. split; [exact Hp'|].
  split; [auto|]. split; [apply keep_last_NoDup|].
  split; [|split; [|split]].
  - intros x Hx. apply select_In in Hx. unfold kept in Hx. apply filter_In in Hx.
    destruct Hx as (Hin & Hf). split; auto. now apply not_league_average.
  - intros x Hin Hne.
    assert (Hk : In (key x) (map key (select (keep_last kept) kept))).
    { apply keep_last_In. apply in_map. unfold kept. apply filter_In.
      split; auto. now apply not_league_average. }
    apply in_map_iff in Hk. destruct Hk as (x' & Hkx & Hx'). eauto.
  - symmetry. now apply select_length_eq.
  - intros x q Hin. rewrite select_combine in Hin.
    rewrite <- (map_fst_combine kept pos1 Hlen1) in Hin at 1.
    apply keep_last_split in Hin. destruct Hin as (b & a & Hsplit & Hnot).
    unfold kept, pos1 in Hsplit. rewrite filter_combine_fst in Hsplit.
    destruct (filter_split _ _ _ _ _ Hsplit) as (b' & a' & Horig & Ha).
    exists b', a'. split; auto.
    intros Hx. apply Hnot. rewrite <- Ha.
    assert (Hfx : f x = true).
    { assert (Hk : In (x, q) (b ++ (x, q) :: a)) by apply in_elt.
      rewrite <- Hsplit in Hk. apply filter_In in Hk. tauto. }
    rewrite map_map in Hx |- *.
    apply in_map_iff in Hx. destruct Hx as ([x' q'] & Hkey & Hin').
    cbn [fst] in Hkey. apply in_map_iff. exists (x', q'). split; auto.
    apply filter_In. split; auto. cbn [fst]. unfold f in *.
    now rewrite (equal_text_key x' x "League Average" Hkey).
Qed.

Lemma cleaning_keeps_last_row_of_each_player_witness :
  exists df', clean ToolsSample.raw_df = Ok df'.
Proof.
  destruct (cleaning_keeps_last_row_of_each_player ToolsSample.raw_df
              [Str "p0"; Str "p1"; Str "p0"; Str "League Average"]
              [Str "PG"; Str "SG"; Str "SF"; Str "C"])
    as (df' & _ & _ & Hclean & _).
  - repeat constructor.
  - reflexivity.
  - reflexivity.
  - exists df'. exact Hclean.
Defined.

Lemma has_column_In name df : has_column name df = true <-> In name (columns df).
Proof. unfold has_column. apply existsb_eqb_In. Qed.

(** What a call that writes predictions went through. *)
Lemma create_classifier_wrote L fs path results :
  create_classifier L fs path = Wrote results ->
  exists df0 df names y split0 y_pred,
    read_csv fs path = Ok df0 /\
    clean df0 = Ok df /\
    getitem df "Player" = Ok names /\
    getitem df "Pos" = Ok y /\
    10 <= len df /\
    test_start_idx (len df) = Ok split0 /\
    List.length (skipn (Z.to_nat (Z.max 1 split0)) (index df)) <> 0%nat /\
    fit_predict L (select_dtypes (numeric L) (drop_columns ["Player"; "Pos"]%string df))
                (Z.max 1 split0) (firstn (Z.to_nat (Z.max 1 split0)) y) = Ok y_pred /\
    make_results (skipn (Z.to_nat (Z.max 1 split0)) names)
                 (skipn (Z.to_nat (Z.max 1 split0)) y) y_pred = Ok results.
Proof.
  unfold create_classifier.
  destruct (path_exists fs path); cbn [negb]; [|discriminate].
  destruct (create_classifier_try L fs path) as [o|e] eqn:Htry; [|discriminate].
  intros ->. unfold create_classifier_try in Htry.
  destruct (read_csv fs path) as [df0|e] eqn:Hread; [|discriminate].
  cbn [bind] in Htry.
  destruct (clean df0) as [df|e] eqn:Hclean; [|discriminate].
  cbn [bind] in Htry.
  destruct (negb (has_column "Player" df) || negb (has_column "Pos" df))%bool;
    [discriminate|].
  destruct (getitem df "Player") as [names|e] eqn:Hnames; [|discriminate].
  cbn [bind] in Htry.
  destruct (getitem df "Pos") as [y|e] eqn:Hy; [|discriminate].
  cbn [bind] in Htry.
  set (X := select_dtypes (numeric L) (drop_columns ["Player"; "Pos"]%string df)) in *.
  destruct (empty X); [discriminate|].
  change (len X) with (len df) in Htry.
  destruct (Z.ltb_spec (len df) 10) as [|Hten]; [discriminate|].
  destruct (scaling_error L X); [discriminate|].
  destruct (test_start_idx (len df)) as [split0|e] eqn:Hsplit; [|discriminate].
  cbn [bind] in Htry. change (index X) with (index df) in Htry.
  destruct (Nat.eqb_spec (List.length (skipn (Z.to_nat (Z.max 1 split0)) (index df))) 0)
    as [|Hne]; [discriminate|].
  destruct (fit_predict L X (Z.max 1 split0) (firstn (Z.to_nat (Z.max 1 split0)) y))
    as [y_pred|e] eqn:Hfit; [|discriminate].
  cbn [bind] in Htry.
  destruct (make_results _ _ y_pred) as [r|e] eqn:Hres; [|discriminate].
  cbn [bind] in Htry. injection Htry as <-.
  exists df0, df, names, y, split0, y_pred. repeat split; auto.
Qed.

Lemma clean_index_length df0 df :
  clean df0 = Ok df -> (List.length (index df) <= List.length (index df0))%nat.
Proof.
  unfold clean. destruct (getitem df0 "Player") as [names|]; [|discriminate].
  cbn [bind]. destruct (getitem _ "Player") as [n2|]; [|discriminate].
  cbn [bind]. intros [= <-]. unfold filter_rows, drop_columns. cbn [index].
  etransitivity; apply select_length_le.
Qed.

(** Lines 59-67: a table without a Player column ends in the except
    branch with the key error of line 62, not with the message about
    the required columns; that message is returned when the Player
    column is there and the Pos column is not, and lists the columns
    left after Rk, Team and Awards are dropped. *)
Theorem producer_on_missing_columns :
  forall L fs path df,
    read_csv fs path = Ok df ->
    (~ In "Player"%string (columns df) ->
     create_classifier L fs path = Failed (KeyError "Player")) /\
    (In "Player"%string (columns df) -> ~ In "Pos"%string (columns df) ->
     create_classifier L fs path =
       Returned (fstring
         ["Error: CSV must contain 'Player' and 'Pos' columns. Found columns: "%string;
          repr_list
            (filter (fun c => negb (existsb (String.eqb c) ["Rk"; "Team"; "Awards"]%string))
                    (columns df))])).
Proof.
  intros L fs path df Hread.
  unfold create_classifier. rewrite (read_csv_path_exists _ _ _ Hread). cbn [negb].
  unfold create_classifier_try. rewrite Hread. cbn [bind]. split.
  - intros Hno. unfold clean, getitem.
    now rewrite (lookup_column_not_In _ _ Hno).
  - intros Hplayer Hnopos.
    destruct (lookup_column_In _ _ Hplayer) as (names & Hnames).
    destruct (clean_spec df names Hnames) as (df' & Hclean & _ & _ & _ & Hcols & _).
    rewrite Hclean. cbn [bind].
    assert (Hpos : has_column "Pos" df' = false).
    { destruct (has_column "Pos" df') eqn:Hh; auto.
      apply has_column_In in Hh. rewrite Hcols in Hh. apply filter_In in Hh. tauto. }
    rewrite Hpos, orb_true_r, Hcols. reflexivity.
Qed.

Lemma producer_on_missing_columns_witness :
  create_classifier ToolsSample.always_pg ToolsSample.fs_no_player "nba_player_stats.csv"
    = Failed (KeyError "Player") /\
  create_classifier ToolsSample.always_pg ToolsSample.fs_no_pos "nba_player_stats.csv"
    = Returned "Error: CSV must contain 'Player' and 'Pos' columns. Found columns: ['Player']".
Proof.
  split.
  - refine (proj1 (producer_on_missing_columns ToolsSample.always_pg
                     ToolsSample.fs_no_player "nba_player_stats.csv" _ eq_refl) _).
    cbn. intros [H|[]]. discriminate.
  - refine (proj2 (producer_on_missing_columns ToolsSample.always_pg
                     ToolsSample.fs_no_pos "nba_player_stats.csv" _ eq_refl) _ _).
    + cbn. now left.
    + cbn. intros [H|[]]. discriminate.
Defined.

Lemma well_formed_read nrows cols :
  Forall (fun cv => List.length (snd cv) = nrows) cols ->
  well_formed {| index := RangeIndex nrows; data := cols |}.
Proof.
  unfold well_formed. cbn [index data]. now rewrite length_RangeIndex.
Qed.

Lemma clean_well_formed df0 df :
  well_formed df0 -> clean df0 = Ok df -> well_formed df.
Proof.
  intros Hwf Hclean.
  destruct (getitem df0 "Player") as [names|e] eqn:Hnames.
  - destruct (clean_spec df0 names Hnames) as (df' & Hclean' & _ & _ & _ & _ & Hwf').
    rewrite Hclean in Hclean'. injection Hclean' as ->. auto.
  - unfold clean in Hclean. rewrite Hnames in Hclean. discriminate.
Qed.

(** Lines 62-64 and 88-90: predictions are written only for a table
    that lists at least ten different players besides the league
    average (different by key, as the cleaning compares them). *)
Theorem writing_needs_ten_distinct_players :
  forall L fs path nrows cols results,
    fs path = Some (Table nrows cols) ->
    Forall (fun cv => List.length (snd cv) = nrows) cols ->
    create_classifier L fs path = Wrote results ->
    exists names kept,
      lookup_column "Player" cols = Ok names /\
      NoDup (map key kept) /\
      (forall x, In x kept -> In x names /\ x <> Str "League Average") /\
      (10 <= List.length kept)%nat.
Proof.
  intros L fs path nrows cols results Hfs Hwf Hw.
  destruct (create_classifier_wrote _ _ _ _ Hw)
    as (df0 & df & names' & y & split0 & y_pred & Hread & Hclean & Hn' & _ & Hten & _).
  unfold read_csv in Hread. rewrite Hfs in Hread. injection Hread as <-.
  pose proof (well_formed_read _ _ Hwf) as Hwf0.
  pose proof (clean_well_formed _ _ Hwf0 Hclean) as Hwfd.
  destruct (getitem {| index := RangeIndex nrows; data := cols |} "Player")
    as [names|e] eqn:Hnames;
    [|unfold clean in Hclean; rewrite Hnames in Hclean; discriminate].
  destruct (clean_spec _ names Hnames) as (df' & Hclean' & Hkept & _).
  rewrite Hclean in Hclean'. injection Hclean' as <-.
  rewrite Hn' in Hkept. injection Hkept as ->.
  set (f := fun v => negb (equal v (Str "League Average"))) in *.
  exists names, (select (keep_last (filter f names)) (filter f names)).
  split; [exact Hnames|]. split; [apply keep_last_NoDup|]. split.
  - intros x Hx. apply select_In in Hx. apply filter_In in Hx.
    destruct Hx as (Hin & Hf). split; auto. now apply not_league_average.
  - rewrite (getitem_length _ _ _ Hwfd Hn'). unfold len in Hten. lia.
Qed.

Lemma writing_needs_ten_distinct_players_witness :
  exists names kept,
    lookup_column "Player" ToolsSample.season_cols = Ok names /\
    NoDup (map key kept) /\
    (forall x, In x kept -> In x names /\ x <> Str "League Average") /\
    (10 <= List.length kept)%nat.
Proof.
  apply (writing_needs_ten_distinct_players ToolsSample.always_pg ToolsSample.fs_season
           "nba_player_stats.csv" 10 ToolsSample.season_cols ToolsSample.season_results).
  - reflexivity.
  - repeat constructor.
  - reflexivity.
Defined.

Lemma split_index_of_ten m :
  10 <= m < 2 ^ 50 ->
  test_start_idx m = Ok (4 * m / 5) /\
  Z.max 1 (4 * m / 5) = 4 * m / 5 /\
  8 <= 4 * m / 5 /\ 4 * m / 5 + 2 <= m.
Proof.
  intros Hm. split; [apply test_start_idx_exact; lia|].
  pose proof (Z.div_mod (4 * m) 5 ltac:(lia)).
  pose proof (Z.mod_pos_bound (4 * m) 5 ltac:(lia)).
  lia.
Qed.

(** Lines 96-117: when predictions are written for a well-formed table
    of fewer than 2^50 rows, the cleaned table has m >= 10 rows, the
    split index is the integer quotient of 4m by 5 (the guard
    max(1, .) changes nothing), the classifier is asked for the rows
    from that index on, having seen the labels before it, and the
    written frame has the three columns Player name, player's actual
    position and predicted position: the players and the positions of
    the cleaned table from the split index on and the predictions, each
    with the m - (4m div 5) >= 2 rows after the split. *)
Theorem written_predictions_shape :
  forall L fs path nrows cols results,
    fs path = Some (Table nrows cols) ->
    Forall (fun cv => List.length (snd cv) = nrows) cols ->
    Z.of_nat nrows < 2 ^ 50 ->
    create_classifier L fs path = Wrote results ->
    exists df names y predicted,
      clean {| index := RangeIndex nrows; data := cols |} = Ok df /\
      getitem df "Player" = Ok names /\
      getitem df "Pos" = Ok y /\
      let m := len df in
      let split_index := 4 * m / 5 in
      let k := Z.to_nat split_index in
      10 <= m <= Z.of_nat nrows /\
      test_start_idx m = Ok split_index /\
      Z.max 1 split_index = split_index /\
      fit_predict L (select_dtypes (numeric L) (drop_columns ["Player"; "Pos"]%string df))
                  split_index (firstn k y) = Ok predicted /\
      results = {| index := RangeIndex (List.length (skipn k y));
                   data := [("Player name"%string, skipn k names);
                            ("player's actual position"%string, skipn k y);
                            ("predicted position"%string, predicted)] |} /\
      Z.of_nat (List.length (skipn k names)) = m - split_index /\
      Z.of_nat (List.length (skipn k y)) = m - split_index /\
      Z.of_nat (List.length predicted) = m - split_index /\
      2 <= m - split_index.
Proof.
  intros L fs path nrows cols results Hfs Hwf Hn Hw.
  destruct (create_classifier_wrote _ _ _ _ Hw)
    as (df0 & df & names & y & split0 & y_pred & Hread & Hclean & Hnames & Hy
        & Hten & Hsplit & _ & Hfit & Hres).
  unfold read_csv in Hread. rewrite Hfs in Hread. injection Hread as <-.
  pose proof (well_formed_read _ _ Hwf) as Hwf0.
  pose proof (clean_well_formed _ _ Hwf0 Hclean) as Hwfd.
  pose proof (clean_index_length _ _ Hclean) as Hle.
  cbn [index] in Hle. rewrite length_RangeIndex in Hle.
  assert (Hm : 10 <= len df < 2 ^ 50) by (unfold len in *; lia).
  destruct (split_index_of_ten _ Hm) as (Hidx & Hmax & H8 & Hlast).
  assert (Hs0 : split0 = 4 * len df / 5) by congruence. subst split0.
  rewrite Hmax in Hres, Hfit.
  unfold make_results in Hres.
  destruct (Nat.eqb_spec (List.length (skipn (Z.to_nat (4 * len df / 5)) names))
                         (List.length (skipn (Z.to_nat (4 * len df / 5)) y)))
    as [Hl1|]; [|discriminate].
  destruct (Nat.eqb_spec (List.length (skipn (Z.to_nat (4 * len df / 5)) y))
                         (List.length y_pred)) as [Hl2|]; [|discriminate].
  cbn [andb] in Hres. injection Hres as <-.
  pose proof (getitem_length _ _ _ Hwfd Hy) as Hly.
  assert (Hact : Z.of_nat (List.length (skipn (Z.to_nat (4 * len df / 5)) y))
                 = len df - 4 * len df / 5).
  { rewrite length_skipn, Hly. unfold len in *. lia. }
  exists df, names, y, y_pred.
  split; [exact Hclean|]. split; [exact Hnames|]. split; [exact Hy|].
  cbn zeta.
  split; [unfold len in *; lia|]. split; [exact Hidx|]. split; [exact Hmax|].
  split; [exact Hfit|]. split; [reflexivity|].
  split; [congruence|]. split; [exact Hact|]. split; [congruence|]. lia.
Qed.

Lemma written_predictions_shape_witness :
  exists df names y predicted,
    clean {| index := RangeIndex 10; data := ToolsSample.season_cols |} = Ok df /\
    getitem df "Player" = Ok names /\
    getitem df "Pos" = Ok y /\
    let m := len df in
    let split_index := 4 * m / 5 in
    let k := Z.to_nat split_index in
    10 <= m <= 10 /\
    test_start_idx m = Ok split_index /\
    Z.max 1 split_index = split_index /\
    fit_predict ToolsSample.always_pg
      (select_dtypes (numeric ToolsSample.always_pg)
                     (drop_columns ["Player"; "Pos"]%string df))
      split_index (firstn k y) = Ok predicted /\
    ToolsSample.season_results
      = {| index := RangeIndex (List.length (skipn k y));
           data := [("Player name"%string, skipn k names);
                    ("player's actual position"%string, skipn k y);
                    ("predicted position"%string, predicted)] |} /\
    Z.of_nat (List.length (skipn k names)) = m - split_index /\
    Z.of_nat (List.length (skipn k y)) = m - split_index /\
    Z.of_nat (List.length predicted) = m - split_index /\
    2 <= m - split_index.
Proof.
  apply (written_predictions_shape ToolsSample.always_pg ToolsSample.fs_season
           "nba_player_stats.csv" 10 ToolsSample.season_cols ToolsSample.season_results).
  - reflexivity.
  - repeat constructor.
  - reflexivity.
  - reflexivity.
Defined.

(** Lines 96-103: for a table of fewer than 2^50 rows the message
    about missing test data is never returned.  The split is reached
    only with ten rows or more, and then at least two rows lie after
    the split index. *)
Theorem no_test_data_message_is_unreachable :
  forall L fs path nrows cols,
    fs path = Some (Table nrows cols) ->
    Z.of_nat nrows < 2 ^ 50 ->
    create_classifier L fs path
    <> Returned "Error: No test data available after split. Dataset too small.".
Proof.
  intros L fs path nrows cols Hfs Hn.
  unfold create_classifier, path_exists. rewrite Hfs. cbn [negb].
  unfold create_classifier_try, read_csv. rewrite Hfs. cbn [bind].
  destruct (clean _) as [df|e] eqn:Hclean; cbn [bind]; [|discriminate].
  pose proof (clean_index_length _ _ Hclean) as Hle.
  cbn [index] in Hle. rewrite length_RangeIndex in Hle.
  destruct (negb (has_column "Player" df) || negb (has_column "Pos" df))%bool;
    [cbn [fstring String.concat String.append]; discriminate|].
  destruct (getitem df "Player") as [names|e]; cbn [bind]; [|discriminate].
  destruct (getitem df "Pos") as [y|e]; cbn [bind]; [|discriminate].
  set (X := select_dtypes (numeric L) (drop_columns ["Player"; "Pos"]%string df)).
  destruct (empty X); [cbn [fstring String.concat String.append]; discriminate|].
  change (len X) with (len df). change (index X) with (index df).
  destruct (Z.ltb_spec (len df) 10) as [|Hten];
    [cbn [fstring String.concat String.append]; discriminate|].
  destruct (scaling_error L X); [discriminate|].
  assert (Hm : 10 <= len df < 2 ^ 50) by (unfold len in *; lia).
  destruct (split_index_of_ten _ Hm) as (Hidx & Hmax & H8 & Hlast).
  rewrite Hidx. cbn [bind]. rewrite Hmax.
  destruct (Nat.eqb_spec (List.length (skipn (Z.to_nat (4 * len df / 5)) (index df))) 0)
    as [Hz|_].
  { rewrite length_skipn in Hz. unfold len in *. lia. }
  destruct (fit_predict L X _ _); cbn [bind]; [|discriminate].
  destruct (make_results _ _ _); cbn [bind]; discriminate.
Qed.

Lemma no_test_data_message_is_unreachable_witness :
  create_classifier ToolsSample.always_pg ToolsSample.fs_season "nba_player_stats.csv"
  <> Returned "Error: No test data available after split. Dataset too small.".
Proof.
  apply (no_test_data_message_is_unreachable ToolsSample.always_pg ToolsSample.fs_season
           "nba_player_stats.csv" 10 ToolsSample.season_cols); reflexivity.
Defined.

Lemma filter_all {A} (f : A -> bool) l :
  (forall x, In x l -> f x = true) -> filter f l = l.
Proof.
  induction l as [|x l IH]; cbn; auto. intros H.
  rewrite (H x) by now left. f_equal. apply IH. intros y Hy. apply H. now right.
Qed.

Lemma map_all {A} (f : A -> bool) l :
  (forall x, In x l -> f x = true) -> Forall (fun b => b = true) (map f l).
Proof.
  intros H. rewrite Forall_map. apply Forall_forall. exact H.
Qed.

(** On a table that needs no cleaning the cleaned columns are the
    columns of the table. *)
Lemma clean_of_clean_table df names :
  well_formed df ->
  getitem df "Player" = Ok names ->
  NoDup (map key names) -> ~ In (Str "League Average") names ->
  exists df',
    clean df = Ok df' /\
    getitem df' "Player" = Ok names /\
    getitem df' "Pos" = getitem df "Pos" /\
    index df' = index df.
Proof.
  intros Hwf Hnames Hnd Hla.
  destruct (clean_spec df names Hnames) as (df' & Hclean & Hn' & Hp' & Hidx & _).
  set (f := fun v => negb (equal v (Str "League Average"))) in *.
  assert (Hf : forall x, In x names -> f x = true).
  { intros x Hx. apply not_league_average. intros ->. contradiction. }
  pose proof (getitem_length _ _ _ Hwf Hnames) as Hlen.
  rewrite (filter_all f names Hf) in *.
  assert (Hsel : forall B (l : list B), List.length l = List.length names ->
                   select (keep_last names) (select (map f names) l) = l).
  { intros B l Hl.
    rewrite (select_all (map f names) l) by (rewrite ?length_map; auto using map_all).
    apply select_all; [now rewrite keep_last_length|now apply keep_last_all]. }
  exists df'. split; [exact Hclean|]. split; [|split].
  - rewrite Hn', select_all;
      [reflexivity|apply keep_last_length|now apply keep_last_all].
  - rewrite Hp'. destruct (getitem df "Pos") as [pos|] eqn:Hpos; auto.
    cbn [bind]. rewrite Hsel; [reflexivity|].
    rewrite (getitem_length _ _ _ Hwf Hpos). auto.
  - rewrite Hidx. apply Hsel. auto.
Qed.

Lemma actual_match_score_self a :
  actual_match_score a a
  = if forallb (fun c => negb (isna c)) a then f1_0 else f0_0.
Proof.
  destruct (forallb (fun c => negb (isna c)) a) eqn:Hall.
  - apply actual_match_score_one. unfold spec_elementwise_equal.
    rewrite <- (Forall2_nth (fun x y => equal x y = true)).
    apply Forall2_equal_refl. rewrite forallb_forall in Hall.
    apply Forall_forall. intros c Hc. specialize (Hall c Hc).
    now destruct (isna c).
  - apply actual_match_score_zero. unfold spec_elementwise_equal.
    rewrite <- (Forall2_nth (fun x y => equal x y = true)).
    intros H. apply Forall2_equal_refl_inv in H.
    rewrite <- not_true_iff_false in Hall. apply Hall.
    apply forallb_forall. rewrite Forall_forall in H.
    intros c Hc. now rewrite (H c Hc).
Qed.

(** [create_classifier] (lines 59-121) with [grade] (lines 43-142): on
    a well-formed season table that needs no cleaning (its players are
    all different and none is the league average; fewer than 2^50
    rows), the predictions that the producer writes, read back as
    [sol.csv] next to the table, always get test_size_correct = 1.0:
    the two sides cut the table at the same row.  They get
    correct_test_split = 1.0 exactly when none of the rows after the
    cut lacks its position, a missing label being equal to nothing; the
    score is then 0.5 + 0.5 * accuracy. *)
Theorem producer_and_grader_agree_on_the_split :
  forall L fs t nrows cols names pos results,
    fs nba_path = Some (Table nrows cols) ->
    Forall (fun cv => List.length (snd cv) = nrows) cols ->
    Z.of_nat nrows < 2 ^ 50 ->
    lookup_column "Player" cols = Ok names ->
    lookup_column "Pos" cols = Ok pos ->
    NoDup (map key names) ->
    ~ In (Str "League Average") names ->
    create_classifier L fs nba_path = Wrote results ->
    fs predictions_path = Some (Table (List.length (index results)) (data results)) ->
    exists predicted,
      getitem results "predicted position" = Ok predicted /\
      let held_out := skipn (Z.to_nat (4 * Z.of_nat nrows / 5)) pos in
      let cs := if forallb (fun c => negb (isna c)) held_out then f1_0 else f0_0 in
      let ca := accuracy held_out predicted in
      getitem results "player's actual position" = Ok held_out /\
      subscores (grade fs t) =
        [("test_size_correct"%string, f1_0); ("correct_test_split"%string, cs);
         ("classification_accuracy"%string, ca)] /\
      score (grade fs t) = weighted f1_0 cs ca /\
      (Forall (fun c => isna c = false) held_out ->
       cs = f1_0 /\ score (grade fs t) = fadd f0_5 (fmul f0_5 ca)).
Proof.
  intros L fs t nrows cols names pos results Hnba Hwf Hn Hnames Hpos Hnd Hla Hw Hsol.
  destruct (create_classifier_wrote _ _ _ _ Hw)
    as (df0 & df & names' & y & split0 & y_pred & Hread & Hclean & Hn' & Hy
        & Hten & Hsplit & _ & _ & Hres).
  pose proof Hread as Hread0.
  unfold read_csv in Hread. rewrite Hnba in Hread. injection Hread as <-.
  pose proof (well_formed_read _ _ Hwf) as Hwf0.
  destruct (clean_of_clean_table _ names Hwf0 Hnames Hnd Hla)
    as (df' & Hclean' & Hpl & Hps & Hidx).
  rewrite Hclean in Hclean'. injection Hclean' as <-.
  unfold getitem at 2 in Hps. cbn [data] in Hps. rewrite Hpos in Hps.
  rewrite Hps in Hy. injection Hy as <-.
  rewrite Hpl in Hn'. injection Hn' as <-.
  assert (Hlen : len df = Z.of_nat nrows).
  { unfold len. rewrite Hidx. cbn [index]. now rewrite length_RangeIndex. }
  rewrite Hlen in *.
  destruct (split_index_of_ten (Z.of_nat nrows) ltac:(lia)) as (Hst & Hmax & H8 & Hlast).
  assert (Hs0 : split0 = 4 * Z.of_nat nrows / 5) by congruence. subst split0.
  rewrite Hmax in Hres. set (k := Z.to_nat (4 * Z.of_nat nrows / 5)) in *.
  unfold make_results in Hres.
  destruct (Nat.eqb_spec (List.length (skipn k names)) (List.length (skipn k pos)))
    as [Hl1|]; [|discriminate].
  destruct (Nat.eqb_spec (List.length (skipn k pos)) (List.length y_pred))
    as [Hl2|]; [|discriminate].
  cbn [andb] in Hres. injection Hres as <-.
  cbn [index data] in Hsol. rewrite length_RangeIndex in Hsol.
  exists y_pred. split; [reflexivity|]. cbn zeta.
  split; [reflexivity|].
  assert (Hlpos : List.length pos = nrows).
  { apply lookup_column_mem in Hpos. rewrite Forall_forall in Hwf.
    exact (Hwf _ Hpos). }
  assert (Hrows : Z.of_nat (List.length (skipn k pos))
                  = Z.of_nat nrows - 4 * Z.of_nat nrows / 5).
  { rewrite length_skipn, Hlpos. unfold k. lia. }
  set (res := {| index := RangeIndex (List.length (skipn k pos));
                 data := [("Player name"%string, skipn k names);
                          ("player's actual position"%string, skipn k pos);
                          ("predicted position"%string, y_pred)] |}) in *.
  set (s := {| predictions_df := res;
               actual_col := "player's actual position";
               predicted_col := "predicted position";
               nba_data := {| index := RangeIndex nrows; data := cols |};
               expected_size := Z.of_nat nrows / 5;
               start_idx := 4 * Z.of_nat nrows / 5;
               expected_labels := skipn k pos;
               actual_values := skipn k pos;
               predicted_values := y_pred |}).
  assert (Hs : reaches_scoring fs s).
  { unfold reaches_scoring, s. cbn [predictions_df actual_col predicted_col nba_data
      expected_size start_idx expected_labels actual_values predicted_values].
    rewrite len_read_frame.
    repeat split.
    - unfold read_csv. now rewrite Hsol.
    - exact Hread0.
    - apply expected_test_size_exact. lia.
    - exact Hst.
    - rewrite expected_actuals_frame, Hpos by lia. cbn [bind]. fold k.
      rewrite searchsorted_left_from by (unfold k; lia). reflexivity. }
  assert (Hts : ts_of s = f1_0).
  { unfold ts_of, size_score, size_tolerance, s, res, len.
    cbn [predictions_df expected_size index]. rewrite length_RangeIndex, Hrows.
    pose proof (Z.div_mod (Z.of_nat nrows) 5 ltac:(lia)).
    pose proof (Z.mod_pos_bound (Z.of_nat nrows) 5 ltac:(lia)).
    pose proof (Z.div_mod (4 * Z.of_nat nrows) 5 ltac:(lia)).
    pose proof (Z.mod_pos_bound (4 * Z.of_nat nrows) 5 ltac:(lia)).
    destruct (Z.leb_spec
                (Z.abs (Z.of_nat nrows - 4 * Z.of_nat nrows / 5 - Z.of_nat nrows / 5)) 2);
      [reflexivity|lia]. }
  assert (Hcs : cs_of s
                = if forallb (fun c => negb (isna c)) (skipn k pos) then f1_0 else f0_0)
    by (unfold cs_of; apply actual_match_score_self).
  assert (Hca : ca_of s = accuracy (skipn k pos) y_pred).
  { unfold ca_of, accuracy_defined, s.
    cbn [actual_values predicted_values]. rewrite Hl2, Nat.eqb_refl.
    destruct (Z.ltb_spec 0 (Z.of_nat (List.length y_pred))); [reflexivity|lia]. }
  destruct (grade_scored fs t s Hs) as (_ & Hsubs & _).
  assert (Hscore : score (grade fs t)
                   = weighted f1_0 (cs_of s) (accuracy (skipn k pos) y_pred)).
  { rewrite (score_is_weighted fs t s Hs), Hts, Hca; [reflexivity|].
    unfold s. cbn [actual_values]. lia. }
  rewrite <- Hcs.
  split; [now rewrite Hsubs, Hts, Hca|]. split; [exact Hscore|].
  intros Hall.
  assert (Hone : cs_of s = f1_0).
  { rewrite Hcs. replace (forallb _ _) with true; [reflexivity|].
    symmetry. apply forallb_forall. rewrite Forall_forall in Hall.
    intros c Hc. now rewrite (Hall c Hc). }
  split; [exact Hone|]. rewrite Hscore, Hone. reflexivity.
Qed.

Lemma producer_and_grader_agree_on_the_split_witness :
  subscores (grade ToolsSample.fs_graded EmptyString) =
    [("test_size_correct"%string, f1_0); ("correct_test_split"%string, f1_0);
     ("classification_accuracy"%string, f0_0)].
Proof.
  destruct (producer_and_grader_agree_on_the_split ToolsSample.always_pg
              ToolsSample.fs_graded EmptyString 10 ToolsSample.season_cols
              [Str "p0"; Str "p1"; Str "p2"; Str "p3"; Str "p4";
               Str "p5"; Str "p6"; Str "p7"; Str "p8"; Str "p9"]
              [Str "PG"; Str "SG"; Str "SF"; Str "PF"; Str "C";
               Str "PG"; Str "SG"; Str "SF"; Str "PF"; Str "C"]
              ToolsSample.season_results)
    as (predicted & Hpred & _ & Hsubs & _).
  - reflexivity.
  - repeat constructor.
  - reflexivity.
  - reflexivity.
  - reflexivity.
  - repeat constructor; cbn; intuition discriminate.
  - cbn. intuition discriminate.
  - reflexivity.
  - reflexivity.
  - vm_compute in Hpred. injection Hpred as <-. exact Hsubs.
Defined.

(* ================================================================== *)
(** * The range of the score                                           *)
(* ================================================================== *)

Lemma shl_align_spec mx ex ez :
  ez <= ex ->
  Zpos (fst (shl_align mx ex ez)) = Zpos mx * 2 ^ (ex - ez).
Proof.
  intros Hle. unfold shl_align.
  destruct (ez - ex) as [|d|d] eqn:Hd; try lia.
  - replace (ex - ez) with 0 by lia. cbn [fst]. lia.
  - cbn [fst]. rewrite (Pos.iter_swap_gen _ _ Zpos xO (Z.mul 2)) by reflexivity.
    change (Pos.iter (Z.mul 2) (Zpos mx) d) with (Z.shiftl (Zpos mx) (Zpos d)).
    rewrite Z.shiftl_mul_pow2 by lia. f_equal. f_equal. lia.
Qed.

(** The sum of two positive normal numbers: the exact sum of the
    aligned mantissas, cut to 53 digits and rounded. *)
Lemma fadd_pos_spec m1 e1 m2 e2 :
  2 ^ 52 <= Zpos m1 < 2 ^ 53 -> 2 ^ 52 <= Zpos m2 < 2 ^ 53 ->
  -300 <= e1 <= 0 -> -300 <= e2 <= 0 ->
  let ez := Z.min e1 e2 in
  let S := Zpos m1 * 2 ^ (e1 - ez) + Zpos m2 * 2 ^ (e2 - ez) in
  exists d m' e',
    2 ^ (d - 1) <= S < 2 ^ d /\ 53 <= d /\
    fadd (S754_finite false m1 e1) (S754_finite false m2 e2) = S754_finite false m' e' /\
    ((e' = ez + (d - 53) /\ S / 2 ^ (d - 53) <= Zpos m' <= S / 2 ^ (d - 53) + 1
      /\ Zpos m' < 2 ^ 53) \/
     (e' = ez + (d - 53) + 1 /\ Zpos m' = 2 ^ 52 /\ S / 2 ^ (d - 53) = 2 ^ 53 - 1)).
Proof.
  intros Hm1 Hm2 He1 He2 ez S.
  unfold fadd, SFadd. fold ez. cbn [cond_Zopp].
  pose proof (shl_align_spec m1 e1 ez ltac:(unfold ez; lia)) as Ha.
  pose proof (shl_align_spec m2 e2 ez ltac:(unfold ez; lia)) as Hb.
  set (a := fst (shl_align m1 e1 ez)) in *.
  set (b := fst (shl_align m2 e2 ez)) in *.
  change (Zpos a + Zpos b) with (Zpos (a + b)).
  assert (HS : Zpos (a + b) = S) by (unfold S; lia).
  pose proof (pow2_pos (e1 - ez) ltac:(unfold ez; lia)) as Hp1.
  pose proof (pow2_pos (e2 - ez) ltac:(unfold ez; lia)) as Hp2.
  pose proof (digits2_bounds (a + b)) as Hdig.
  set (d := Zpos (digits2_pos (a + b))) in *.
  assert (Hd53 : 53 <= d).
  { destruct (Z.leb_spec 53 d); auto. exfalso.
    assert (2 ^ d <= 2 ^ 52) by (apply Z.pow_le_mono_r; lia). nia. }
  assert (Hdup : d <= 360).
  { destruct (Z.leb_spec d 360); auto. exfalso.
    assert (2 ^ 359 <= 2 ^ (d - 1)) by (apply Z.pow_le_mono_r; lia).
    assert (2 ^ (e1 - ez) <= 2 ^ 300) by (apply Z.pow_le_mono_r; unfold ez; lia).
    assert (2 ^ (e2 - ez) <= 2 ^ 300) by (apply Z.pow_le_mono_r; unfold ez; lia).
    assert (Zpos (a + b) < 2 ^ 53 * 2 ^ 300 + 2 ^ 53 * 2 ^ 300) by nia.
    assert (2 ^ 53 * 2 ^ 300 + 2 ^ 53 * 2 ^ 300 <= 2 ^ 359) by (vm_compute; discriminate).
    lia. }
  cbn [binary_normalize]. unfold binary_round. fold d.
  rewrite fexp_eq by (unfold ez; lia).
  assert (Hal : shl_align (a + b) ez (d + ez - 53) = ((a + b)%positive, ez)).
  { unfold shl_align. destruct (d + ez - 53 - ez) eqn:Hx; try reflexivity. lia. }
  rewrite Hal.
  destruct (binary_round_aux_spec false (a + b) ez loc_Exact d eq_refl)
    as (m' & e' & Hres & Hpost); try (unfold ez; lia).
  exists d, m', e'. rewrite <- HS. repeat split; try tauto; try lia.
Qed.

Lemma fle_finite_spec m1 e1 m2 e2 :
  fle (S754_finite false m1 e1) (S754_finite false m2 e2) = true <->
  e1 < e2 \/ (e1 = e2 /\ Zpos m1 <= Zpos m2).
Proof.
  unfold fle, SFleb, SFcompare.
  change (Pos.compare_cont Eq m1 m2) with (Pos.compare m1 m2).
  destruct (Z.compare_spec e1 e2) as [He|He|He].
  - destruct (Pos.compare_spec m1 m2) as [Hm|Hm|Hm].
    + subst. split; auto. intros _. right. split; auto. lia.
    + split; auto. intros _. right. split; auto. lia.
    + split; [discriminate|]. lia.
  - split; auto.
  - split; [discriminate|lia].
Qed.

Lemma fle_trans_finite m1 e1 m2 e2 m3 e3 :
  fle (S754_finite false m1 e1) (S754_finite false m2 e2) = true ->
  fle (S754_finite false m2 e2) (S754_finite false m3 e3) = true ->
  fle (S754_finite false m1 e1) (S754_finite false m3 e3) = true.
Proof. rewrite !fle_finite_spec. lia. Qed.

Lemma fmul_half_normal m e :
  2 ^ 52 <= Zpos m < 2 ^ 53 -> -300 <= e <= 0 ->
  fmul f0_5 (S754_finite false m e) = S754_finite false m (e - 1).
Proof.
  intros Hm He. rewrite fmul_comm. unfold fmul, f0_5, SFmul. cbn [xorb].
  rewrite (binary_round_aux_exact false m 52 (e + -53)); auto; try lia.
  f_equal. lia.
Qed.

(** Two positive normal numbers, the first at most one half and the
    second below one half, add up to at most one. *)
Lemma fadd_le_one m1 e1 m2 e2 :
  2 ^ 52 <= Zpos m1 < 2 ^ 53 -> 2 ^ 52 <= Zpos m2 < 2 ^ 53 ->
  -300 <= e1 <= -53 -> -300 <= e2 <= -54 ->
  Zpos m1 <= 2 ^ (- 1 - e1) ->
  fle (fadd (S754_finite false m1 e1) (S754_finite false m2 e2)) f1_0 = true.
Proof.
  intros Hm1 Hm2 He1 He2 Hhalf.
  destruct (fadd_pos_spec m1 e1 m2 e2 Hm1 Hm2 ltac:(lia) ltac:(lia))
    as (d & m' & e' & Hd & Hd53 & -> & Hpost).
  set (ez := Z.min e1 e2) in *.
  assert (Hs1 : Zpos m1 * 2 ^ (e1 - ez) <= 2 ^ (- 1 - ez)).
  { replace (- 1 - ez) with ((- 1 - e1) + (e1 - ez)) by lia.
    rewrite Z.pow_add_r by (unfold ez; lia).
    apply Z.mul_le_mono_nonneg_r; auto. apply Z.lt_le_incl, pow2_pos. unfold ez; lia. }
  assert (Hs2 : Zpos m2 * 2 ^ (e2 - ez) < 2 ^ (- 1 - ez)).
  { replace (- 1 - ez) with ((- 1 - e2) + (e2 - ez)) by lia.
    rewrite Z.pow_add_r by (unfold ez; lia).
    apply Z.mul_lt_mono_pos_r; [apply pow2_pos; unfold ez; lia|].
    assert (2 ^ 53 <= 2 ^ (- 1 - e2)) by (apply Z.pow_le_mono_r; lia). lia. }
  assert (Hsum : 2 ^ (d - 1) < 2 ^ (- ez)).
  { replace (- ez) with (Z.succ (- 1 - ez)) by lia.
    rewrite Z.pow_succ_r by (unfold ez; lia). lia. }
  assert (Hdle : d <= - ez).
  { destruct (Z.leb_spec d (- ez)); auto. exfalso.
    assert (2 ^ (- ez) <= 2 ^ (d - 1)) by (apply Z.pow_le_mono_r; unfold ez in *; lia).
    lia. }
  unfold f1_0. apply fle_finite_spec.
  destruct Hpost as [(-> & _)|(-> & Hm & _)]; [left; lia|].
  destruct (Z.eq_dec d (- ez)); [right; split; lia|left; lia].
Qed.

(** Adding a positive normal number never gives less than the first
    term. *)
Lemma fadd_ge_left m1 e1 m2 e2 :
  2 ^ 52 <= Zpos m1 < 2 ^ 53 -> 2 ^ 52 <= Zpos m2 < 2 ^ 53 ->
  -300 <= e1 <= 0 -> -300 <= e2 <= 0 ->
  exists m' e',
    fadd (S754_finite false m1 e1) (S754_finite false m2 e2) = S754_finite false m' e' /\
    fle (S754_finite false m1 e1) (S754_finite false m' e') = true.
Proof.
  intros Hm1 Hm2 He1 He2.
  destruct (fadd_pos_spec m1 e1 m2 e2 Hm1 Hm2 He1 He2)
    as (d & m' & e' & Hd & Hd53 & Hres & Hpost).
  set (ez := Z.min e1 e2) in *.
  set (S := Zpos m1 * 2 ^ (e1 - ez) + Zpos m2 * 2 ^ (e2 - ez)) in *.
  pose proof (pow2_pos (e1 - ez) ltac:(unfold ez; lia)) as Hp1.
  pose proof (pow2_pos (e2 - ez) ltac:(unfold ez; lia)) as Hp2.
  assert (Hlow : Zpos m1 * 2 ^ (e1 - ez) <= S) by (unfold S; nia).
  assert (Hdge : 53 + (e1 - ez) <= d).
  { destruct (Z.leb_spec (53 + (e1 - ez)) d); auto. exfalso.
    assert (2 ^ d <= 2 ^ (52 + (e1 - ez))) by (apply Z.pow_le_mono_r; lia).
    rewrite Z.pow_add_r in H0 by (unfold ez; lia). nia. }
  exists m', e'. split; [exact Hres|]. apply fle_finite_spec.
  destruct Hpost as [(-> & Hb & _)|(-> & _)]; [|left; lia].
  destruct (Z.eq_dec d (53 + (e1 - ez))) as [Heq|]; [right|left; lia].
  split; [lia|].
  assert (Zpos m1 <= S / 2 ^ (d - 53)); [|lia].
  replace (d - 53) with (e1 - ez) by lia.
  apply Z.div_le_lower_bound; lia.
Qed.

(** The accuracy of [k] right answers out of [n] (0 < k <= n < 2^53) is
    1.0 or a normal number below one. *)
Lemma accuracy_normal k n :
  0 < n < 2 ^ 53 -> 0 < k <= n ->
  fdiv (float_of_Z k) (float_of_Z n) = f1_0 \/
  exists m e, fdiv (float_of_Z k) (float_of_Z n) = S754_finite false m e /\
              2 ^ 52 <= Zpos m < 2 ^ 53 /\ -105 <= e <= -53.
Proof.
  intros Hn Hk.
  destruct (accuracy_range k n Hn ltac:(lia)) as [Hz | [H1 | (m & e & Hres & He)]].
  - exfalso.
    destruct (float_of_Z_spec n Hn) as (m2 & e2 & En & Hm2 & He2 & _).
    destruct (float_of_Z_spec k ltac:(lia)) as (m1 & e1 & Ek & Hm1 & He1 & _).
    rewrite Ek, En in Hz.
    destruct (fdiv_spec m1 e1 m2 e2 Hm1 Hm2 ltac:(lia) ltac:(lia))
      as (m' & e' & Hres & _).
    congruence.
  - now left.
  - right. exists m, e. split; [exact Hres|].
    destruct (float_of_Z_spec n Hn) as (m2 & e2 & En & Hm2 & He2 & _).
    destruct (float_of_Z_spec k ltac:(lia)) as (m1 & e1 & Ek & Hm1 & He1 & _).
    rewrite Ek, En in Hres.
    destruct (fdiv_spec m1 e1 m2 e2 Hm1 Hm2 ltac:(lia) ltac:(lia))
      as (m' & e' & Hres' & Hpost).
    rewrite Hres in Hres'. injection Hres' as <- <-.
    set (t := Zpos m1 * 2 ^ 53 / Zpos m2) in *.
    assert (Ht : 2 ^ 52 <= t < 2 ^ 54).
    { unfold t. split.
      - apply Z.div_le_lower_bound; lia.
      - apply Z.div_lt_upper_bound; lia. }
    destruct (Z.ltb_spec (Zpos m1) (Zpos m2)).
    + change (2 ^ (53 - 53)) with 1 in Hpost. rewrite Z.div_1_r in Hpost.
      destruct Hpost as [(E & Hb & Hlt)|(E & Hm & _)]; split; lia.
    + assert (Ht2 : 2 ^ 53 <= t).
      { unfold t. apply Z.div_le_lower_bound; lia. }
      change (2 ^ (54 - 53)) with 2 in Hpost.
      assert (2 ^ 52 <= t / 2) by (apply Z.div_le_lower_bound; lia).
      destruct Hpost as [(E & Hb & Hlt)|(E & Hm & _)]; split; lia.
Qed.

Lemma weighted_prefix_cases ts cs :
  ts = f1_0 \/ ts = f0_5 -> cs = f1_0 \/ cs = f0_0 ->
  exists mP eP,
    fadd (fmul f0_2 ts) (fmul f0_3 cs) = S754_finite false mP eP /\
    2 ^ 52 <= Zpos mP < 2 ^ 53 /\ -56 <= eP <= -53 /\
    Zpos mP <= 2 ^ (- 1 - eP) /\
    fle (literal 1 10) (S754_finite false mP eP) = true.
Proof.
  intros [-> | ->] [-> | ->]; eexists; eexists;
    (split; [vm_compute; reflexivity|]);
    (split; [split; [vm_compute; discriminate|reflexivity]|]);
    (split; [lia|]);
    (split; [vm_compute; discriminate|reflexivity]).
Qed.

Lemma accuracy_cases a p :
  accuracy_defined a p = true ->
  Z.of_nat (List.length a) < 2 ^ 53 ->
  accuracy a p = f0_0 \/ accuracy a p = f1_0 \/
  exists m e, accuracy a p = S754_finite false m e /\
              2 ^ 52 <= Zpos m < 2 ^ 53 /\ -105 <= e <= -53.
Proof.
  intros Hdef Hn. unfold accuracy_defined in Hdef.
  apply andb_true_iff in Hdef. destruct Hdef as (_ & Hpos). apply Z.ltb_lt in Hpos.
  pose proof (count_equal_bounds a p) as Hk. unfold accuracy.
  destruct (Z.eq_dec (count_equal a p) 0) as [-> | Hk0].
  - left. destruct (float_of_Z_spec _ (conj Hpos Hn)) as (m & e & -> & _).
    reflexivity.
  - right. apply accuracy_normal; lia.
Qed.

(** Lines 68-131: the score of a scored submission (fewer than 2^53
    rows) lies between 0.1 and 1.0.  Even with every prediction wrong,
    the wrong rows and the wrong size, a submission that names the two
    columns keeps 0.5 * 0.2 of the weight of the size check. *)
Theorem scored_run_is_between_a_tenth_and_one :
  forall fs t s,
    reaches_scoring fs s ->
    Z.of_nat (List.length (actual_values s)) < 2 ^ 53 ->
    fle (literal 1 10) (score (grade fs t)) = true /\
    fle (score (grade fs t)) f1_0 = true.
Proof.
  intros fs t s H Hn.
  rewrite (score_is_weighted fs t s H Hn).
  pose proof (size_score_cases (len (predictions_df s)) (expected_size s)) as Hts.
  pose proof (actual_match_score_cases (actual_values s) (expected_labels s)) as Hcs.
  fold (ts_of s) in Hts. fold (cs_of s) in Hcs.
  assert (Hca : ca_of s = f0_0 \/ ca_of s = f1_0 \/
                exists m e, ca_of s = S754_finite false m e /\
                            2 ^ 52 <= Zpos m < 2 ^ 53 /\ -105 <= e <= -53).
  { unfold ca_of.
    destruct (accuracy_defined (actual_values s) (predicted_values s)) eqn:Hdef;
      [now apply accuracy_cases|now left]. }
  destruct Hca as [-> | [-> | (m & e & -> & Hm & He)]].
  - destruct Hts as [-> | ->], Hcs as [-> | ->]; split; reflexivity.
  - destruct Hts as [-> | ->], Hcs as [-> | ->]; split; reflexivity.
  - destruct (weighted_prefix_cases _ _ Hts Hcs)
      as (mP & eP & HP & HmP & HeP & Hhalf & Hlow).
    unfold weighted. rewrite HP, fmul_half_normal by lia. split.
    + destruct (fadd_ge_left mP eP m (e - 1) HmP Hm ltac:(lia) ltac:(lia))
        as (m' & e' & -> & Hge).
      change (literal 1 10) with (S754_finite false 7205759403792794 (-56)) in *.
      exact (fle_trans_finite _ _ _ _ _ _ Hlow Hge).
    + apply fadd_le_one; auto; lia.
Qed.

Lemma scored_run_is_between_a_tenth_and_one_witness :
  fle (literal 1 10) (score (grade Sample.fs_half EmptyString)) = true /\
  fle (score (grade Sample.fs_half EmptyString)) f1_0 = true.
Proof.
  apply (scored_run_is_between_a_tenth_and_one Sample.fs_half EmptyString Sample.s_half).
  - repeat split; reflexivity.
  - reflexivity.
Defined.

Lemma filter_none {A} (f : A -> bool) l :
  (forall x, In x l -> f x = false) -> filter f l = [].
Proof.
  induction l as [|x l IH]; cbn; auto. intros H.
  rewrite (H x) by now left. apply IH. intros y Hy. apply H. now right.
Qed.

(** Lines 62-81: a table with a Player and a Pos column but no player
    row (no data row at all, or league-average rows only) is turned
    down with the message about numeric columns, whatever columns it
    has: an empty frame counts as having none. *)
Theorem producer_on_table_without_players :
  forall L fs path nrows cols names,
    fs path = Some (Table nrows cols) ->
    lookup_column "Player" cols = Ok names ->
    In "Pos"%string (map fst cols) ->
    (forall x, In x names -> x = Str "League Average") ->
    create_classifier L fs path =
      Returned (fstring
        ["Error: No numeric columns found for training. Available columns: "%string;
         repr_list
           (filter (fun c => negb (existsb (String.eqb c) ["Rk"; "Team"; "Awards"]%string))
                   (map fst cols))]).
Proof.
  intros L fs path nrows cols names Hfs Hnames Hpos Hall.
  unfold create_classifier, path_exists. rewrite Hfs. cbn [negb].
  unfold create_classifier_try, read_csv. rewrite Hfs. cbn [bind].
  set (df0 := {| index := RangeIndex nrows; data := cols |}).
  destruct (clean_spec df0 names Hnames) as (df & Hclean & Hn' & Hp' & Hidx & Hcols & _).
  rewrite Hclean. cbn [bind].
  assert (Hkept : filter (fun v => negb (equal v (Str "League Average"))) names = []).
  { apply filter_none. intros x Hx. rewrite (Hall x Hx). reflexivity. }
  rewrite Hkept in *. cbn [keep_last select] in *.
  assert (Hplayer : has_column "Player" df = true).
  { apply has_column_In. rewrite Hcols. apply filter_In. split; [|reflexivity].
    apply lookup_column_mem in Hnames. apply in_map_iff. now exists ("Player"%string, names). }
  assert (Hhas : has_column "Pos" df = true).
  { apply has_column_In. rewrite Hcols. apply filter_In. split; [exact Hpos|reflexivity]. }
  rewrite Hplayer, Hhas. cbn [negb orb]. rewrite Hn'. cbn [bind].
  rewrite Hp'. destruct (lookup_column_In _ _ Hpos) as (pos & Hlook).
  unfold getitem at 1. cbn [data df0]. rewrite Hlook. cbn [bind].
  unfold empty, len. cbn [select_dtypes drop_columns index]. rewrite Hidx.
  cbn [List.length Z.of_nat Z.eqb]. rewrite orb_true_r, Hcols. reflexivity.
Qed.

Lemma producer_on_table_without_players_witness :
  create_classifier ToolsSample.always_pg
    (fun _ => Some (Table 1 [("Player"%string, [Str "League Average"]);
                             ("Pos"%string, [Str "C"]);
                             ("PTS"%string, [Int 3])]))
    "nba_player_stats.csv"
  = Returned "Error: No numeric columns found for training. Available columns: ['Player', 'Pos', 'PTS']".
Proof.
  apply (producer_on_table_without_players ToolsSample.always_pg _ _ 1%nat
           [("Player"%string, [Str "League Average"]);
            ("Pos"%string, [Str "C"]);
            ("PTS"%string, [Int 3])]
           [Str "League Average"]).
  - reflexivity.
  - reflexivity.
  - cbn. auto.
  - intros x [<- | []]. reflexivity.
Defined.
